(** * Event-triggered UAV control: translational dynamics, disturbance
      observer and fault detection / compensation

    A shallow embedding of the three numeric components of the package
    [UAV] ([six_rotor_uav.py], [disturbance_observer.py],
    [fdi_compensator.py]) and of the tick of [simulation.py].

    Numbers.  The Python code computes with numpy [float64].  Here a
    [float64] is an exact real number or one of the IEEE special values
    [inf], [-inf], [nan]: arithmetic on finite values is the exact
    arithmetic of [R] (rounding and overflow are left out), arithmetic that
    involves zero divisors and special values follows IEEE 754 as numpy
    applies it.  A zero carries no sign; a zero divisor counts as [+0.0].

    Arrays.  Every array is an array of [float64], as [np.zeros], [np.ones]
    and [np.eye] create them.  A numpy array of rotor values is a
    [list float64]; the arrays whose shape the code fixes are tuples: a
    3-vector is [vec3], a 3x3 matrix is three rows, the state vector is
    [state6] with its two slices [[:3]] and [[3:]].

    Objects.  Every class is a record of its attributes; a method takes the
    object and returns an [outcome]: the object after the call with the
    returned value, or the exception raised. *)

From Stdlib Require Import Reals Lra Lia List Bool.
Import ListNotations.

Local Open Scope R_scope.

(** ** float64 *)

Inductive float64 : Type :=
| Fin (r : R)
| Inf (negative : bool)
| NaN.

Definition is_finite (a : float64) : bool :=
  match a with Fin _ => true | _ => false end.

Definition Req_bool (a b : R) : bool :=
  if Req_dec_T a b then true else false.

Definition Rlt_bool (a b : R) : bool :=
  if Rlt_dec a b then true else false.

Definition fneg (a : float64) : float64 :=
  match a with
  | Fin r => Fin (- r)
  | Inf s => Inf (negb s)
  | NaN => NaN
  end.

Definition fabs (a : float64) : float64 :=
  match a with
  | Fin r => Fin (Rabs r)
  | Inf _ => Inf false
  | NaN => NaN
  end.

Definition fadd (a b : float64) : float64 :=
  match a, b with
  | Fin x, Fin y => Fin (x + y)
  | Fin _, Inf s => Inf s
  | Inf s, Fin _ => Inf s
  | Inf s, Inf t => if Bool.eqb s t then Inf s else NaN
  | _, _ => NaN
  end.

Definition fsub (a b : float64) : float64 := fadd a (fneg b).

Definition fmul (a b : float64) : float64 :=
  match a, b with
  | Fin x, Fin y => Fin (x * y)
  | Fin x, Inf s => if Req_bool x 0 then NaN else Inf (xorb (Rlt_bool x 0) s)
  | Inf s, Fin y => if Req_bool y 0 then NaN else Inf (xorb s (Rlt_bool y 0))
  | Inf s, Inf t => Inf (xorb s t)
  | _, _ => NaN
  end.

(** numpy's division: a zero divisor gives [inf], [-inf] or [nan] (and a
    RuntimeWarning), never an exception. *)
Definition fdiv (a b : float64) : float64 :=
  match a, b with
  | Fin x, Fin y =>
      if Req_bool y 0
      then (if Req_bool x 0 then NaN else Inf (Rlt_bool x 0))
      else Fin (x / y)
  | Fin _, Inf _ => Fin 0
  | Inf s, Fin y => Inf (xorb s (Rlt_bool y 0))
  | _, _ => NaN
  end.

(** [a < b] and [a == b]; every comparison with [nan] is false. *)
Definition flt (a b : float64) : bool :=
  match a, b with
  | Fin x, Fin y => Rlt_bool x y
  | Fin _, Inf s => negb s
  | Inf s, Fin _ => s
  | Inf s, Inf t => s && negb t
  | _, _ => false
  end.

Definition feqb (a b : float64) : bool :=
  match a, b with
  | Fin x, Fin y => Req_bool x y
  | Inf s, Inf t => Bool.eqb s t
  | _, _ => false
  end.

Definition fcos (a : float64) : float64 :=
  match a with Fin r => Fin (cos r) | _ => NaN end.

Definition fsin (a : float64) : float64 :=
  match a with Fin r => Fin (sin r) | _ => NaN end.

(** [bool.astype(float)] *)
Definition of_bool (b : bool) : float64 := if b then Fin 1 else Fin 0.

Declare Scope float_scope.
Delimit Scope float_scope with flt.
Bind Scope float_scope with float64.
Infix "+" := fadd : float_scope.
Infix "-" := fsub : float_scope.
Infix "*" := fmul : float_scope.
Infix "/" := fdiv : float_scope.
Notation "- a" := (fneg a) : float_scope.

(** ** Exceptions and outcomes *)

Inductive exn : Type :=
| ValueError
| ZeroDivisionError.

Inductive outcome (A : Type) : Type :=
| Returned (a : A)
| Raised (e : exn).
Arguments Returned {A} a.
Arguments Raised {A} e.

Definition bind {A B : Type} (m : outcome A) (k : A -> outcome B) : outcome B :=
  match m with
  | Returned a => k a
  | Raised e => Raised e
  end.

Notation "x <- m ;; k" := (bind m (fun x => k))
  (at level 61, m at next level, right associativity).
Notation "' pat <- m ;; k" := (bind m (fun x => match x with pat => k end))
  (at level 61, pat pattern, m at next level, right associativity).

Definition raises {A : Type} (m : outcome A) : Prop :=
  exists e, m = Raised e.

(** ** numpy arrays *)

(** [np.sum]: the sum of the entries, [0.0] for an empty array. *)
Definition np_sum (xs : list float64) : float64 :=
  fold_left fadd xs (Fin 0).

Definition np_zeros (n : nat) : list float64 := repeat (Fin 0) n.
Definition np_ones (n : nat) : list float64 := repeat (Fin 1) n.

(** A binary operation on two one-dimensional arrays, with numpy's
    broadcasting: equal lengths go entry by entry, an array of length one is
    stretched, anything else raises [ValueError]. *)
Fixpoint zip_with {A B C : Type} (f : A -> B -> C) (xs : list A) (ys : list B)
  : list C :=
  match xs, ys with
  | x :: xs', y :: ys' => f x y :: zip_with f xs' ys'
  | _, _ => []
  end.

Definition broadcast {C : Type} (f : float64 -> float64 -> C)
    (xs ys : list float64) : outcome (list C) :=
  if Nat.eqb (length xs) (length ys) then Returned (zip_with f xs ys)
  else match xs, ys with
       | [x], _ => Returned (map (f x) ys)
       | _, [y] => Returned (map (fun x => f x y) xs)
       | _, _ => Raised ValueError
       end.

(** 3-vectors and 3x3 matrices *)
Definition vec3 : Type := float64 * float64 * float64.
Definition mat3 : Type := vec3 * vec3 * vec3.

Definition vzero : vec3 := (Fin 0, Fin 0, Fin 0).

Definition vmap2 (f : float64 -> float64 -> float64) (u v : vec3) : vec3 :=
  let '(u0, u1, u2) := u in
  let '(v0, v1, v2) := v in
  (f u0 v0, f u1 v1, f u2 v2).

Definition vadd : vec3 -> vec3 -> vec3 := vmap2 fadd.
Definition vsub : vec3 -> vec3 -> vec3 := vmap2 fsub.

(** scalar * array, array * scalar, array / scalar *)
Definition smul (c : float64) (v : vec3) : vec3 :=
  let '(v0, v1, v2) := v in (c * v0, c * v1, c * v2)%flt.
Definition vmuls (v : vec3) (c : float64) : vec3 :=
  let '(v0, v1, v2) := v in (v0 * c, v1 * c, v2 * c)%flt.
Definition vdivs (v : vec3) (c : float64) : vec3 :=
  let '(v0, v1, v2) := v in (v0 / c, v1 / c, v2 / c)%flt.

Definition inner (u v : vec3) : float64 :=
  let '(u0, u1, u2) := u in
  let '(v0, v1, v2) := v in
  (u0 * v0 + u1 * v1 + u2 * v2)%flt.

(** [np.dot] of a matrix and a vector *)
Definition np_dot (m : mat3) (v : vec3) : vec3 :=
  let '(r0, r1, r2) := m in (inner r0 v, inner r1 v, inner r2 v).

(** [np.diag] of a 3-tuple and [np.eye(3)] *)
Definition np_diag (d : vec3) : mat3 :=
  let '(d0, d1, d2) := d in
  ((d0, Fin 0, Fin 0), (Fin 0, d1, Fin 0), (Fin 0, Fin 0, d2)).

Definition np_eye3 : mat3 := np_diag (Fin 1, Fin 1, Fin 1).

(** column [R[:, 2]] *)
Definition column2 (m : mat3) : vec3 :=
  let '((_, _, a), (_, _, b), (_, _, c)) := m in (a, b, c).

(** The state vector [x, y, z, vx, vy, vz] and its slices. *)
Record state6 : Type := mkState {
  s_x : float64; s_y : float64; s_z : float64;
  s_vx : float64; s_vy : float64; s_vz : float64
}.

Definition zeros6 : state6 :=
  mkState (Fin 0) (Fin 0) (Fin 0) (Fin 0) (Fin 0) (Fin 0).

(** [state[:3]] and [state[3:]] *)
Definition slice_lo (s : state6) : vec3 := (s_x s, s_y s, s_z s).
Definition slice_hi (s : state6) : vec3 := (s_vx s, s_vy s, s_vz s).

(** [state[:3] += d] and [state[3:] += d] *)
Definition iadd_lo (s : state6) (d : vec3) : state6 :=
  let '(a, b, c) := vadd (slice_lo s) d in
  mkState a b c (s_vx s) (s_vy s) (s_vz s).
Definition iadd_hi (s : state6) (d : vec3) : state6 :=
  let '(a, b, c) := vadd (slice_hi s) d in
  mkState (s_x s) (s_y s) (s_z s) a b c.

(** ** Python floats and [np.linspace] *)

(** [a >= b] *)
Definition fge (a b : float64) : bool :=
  match a, b with
  | Fin x, Fin y => negb (Rlt_bool x y)
  | Fin _, Inf s => s
  | Inf s, Fin _ => negb s
  | Inf s, Inf t => negb s || t
  | _, _ => false
  end.

(** [a / b] on two Python floats, both finite: a zero divisor raises. *)
Definition py_truediv (a b : R) : outcome R :=
  if Req_bool b 0 then Raised ZeroDivisionError else Returned (a / b).

(** [int(x)] on a finite Python float: truncation towards zero. *)
Definition py_int (x : R) : Z :=
  if Rlt_bool x 0 then (- Int_part (- x))%Z else Int_part x.

(** [np.linspace(start, stop, num)], the end point included: a negative
    [num] raises, one sample is [start], and [num] samples are
    [start + i * (stop - start) / (num - 1)]. *)
Definition np_linspace (start stop : R) (num : Z) : outcome (list float64) :=
  if (num <? 0)%Z then Raised ValueError
  else
    let n := Z.to_nat num in
    let step := (stop - start) / INR (n - 1) in
    Returned
      (map (fun i => if Nat.eqb n 1 then Fin start
                     else Fin (start + INR i * step))
           (seq 0 n)).

(** ** six_rotor_uav.py *)

Module SixRotorUAV.

Record t : Type := mk {
  M : float64;          (* mass *)
  G : float64;          (* gravitational acceleration *)
  Gamma : mat3;         (* np.diag(air_resistance) *)
  p_const : float64;    (* thrust constant *)
  state : state6;       (* [x, y, z, vx, vy, vz] *)
  euler : vec3          (* [roll, pitch, yaw] *)
}.

(** [__init__(mass, g, air_resistance, p_const)] *)
Definition init (mass g : float64) (air_resistance : vec3) (p : float64) : t :=
  mk mass g (np_diag air_resistance) p zeros6 vzero.

(** [SixRotorUAV()]: mass=1.0, g=9.81, air_resistance=(0.1, 0.1, 0.1),
    p_const=1.0 *)
Definition init_default : t :=
  init (Fin 1) (Fin 9.81) (Fin 0.1, Fin 0.1, Fin 0.1) (Fin 1).

Definition with_state (self : t) (s : state6) : t :=
  mk (M self) (G self) (Gamma self) (p_const self) s (euler self).

Definition set_euler_angles (self : t) (roll pitch yaw : float64)
  : outcome (t * unit) :=
  Returned (mk (M self) (G self) (Gamma self) (p_const self) (state self)
               (roll, pitch, yaw), tt).

(** [set_state] on six Python floats.  (With six ints numpy builds an
    [int64] array instead, on which the in-place float additions of
    [update_dynamics] raise; that case is outside this model of the state.) *)
Definition set_state (self : t) (x y z vx vy vz : float64)
  : outcome (t * unit) :=
  Returned (with_state self (mkState x y z vx vy vz), tt).

(** ZYX (yaw-pitch-roll) rotation matrix, body frame to inertial frame. *)
Definition rotation_matrix (self : t) (roll pitch yaw : float64)
  : outcome mat3 :=
  let cr := fcos roll in
  let sr := fsin roll in
  let cp := fcos pitch in
  let sp := fsin pitch in
  let cy := fcos yaw in
  let sy := fsin yaw in
  Returned
    ((cy * cp,  cy * sp * sr - sy * cr,  cy * sp * cr + sy * sr),
     (sy * cp,  sy * sp * sr + cy * cr,  sy * sp * cr - cy * sr),
     (- sp,     cp * sr,                 cp * cr))%flt.

Definition get_thrust_direction (self : t) : outcome vec3 :=
  let '(roll, pitch, yaw) := euler self in
  R <- rotation_matrix self roll pitch yaw ;;
  let thrust_direction := column2 R in
  Returned thrust_direction.

(** [p_const * np.sum(rotor_speeds**2)] *)
Definition compute_total_thrust (self : t) (rotor_speeds : list float64)
  : outcome float64 :=
  let total_thrust :=
    (p_const self * np_sum (map (fun w => w * w) rotor_speeds))%flt in
  Returned total_thrust.





(** One Euler step.  [velocity = self.state[3:]] is a view of the state
    array: each use reads the array as it is at that point.  Both uses come
    before the velocity slice is written. *)
Definition update_dynamics (self : t) (rotor_speeds : list float64)
    (dt : float64) (disturbance : vec3) : outcome (t * state6) :=
  P_bar <- compute_total_thrust self rotor_speeds ;;
  thrust_dir <- get_thrust_direction self ;;
  let velocity := slice_hi in
  let acceleration :=
    vadd (vsub (vsub (smul (P_bar / M self) thrust_dir)
                     (Fin 0, Fin 0, G self))
               (vdivs (np_dot (Gamma self) (velocity (state self))) (M self)))
         disturbance in
  let self1 :=
    with_state self (iadd_lo (state self) (vmuls (velocity (state self)) dt)) in
  let self2 :=
    with_state self1 (iadd_hi (state self1) (vmuls acceleration dt)) in
  Returned (self2, state self2).

(** the default [disturbance=np.zeros(3)] *)
Definition update_dynamics_default (self : t) (rotor_speeds : list float64)
    (dt : float64) : outcome (t * state6) :=
  update_dynamics self rotor_speeds dt vzero.

End SixRotorUAV.

(** ** disturbance_observer.py *)

Module DisturbanceObserver.

Record t : Type := mk {
  M : float64;
  gain_matrix : mat3;
  estimated_disturbance : vec3
}.

(** [__init__(mass, gain_matrix=None)] *)
Definition init (mass : float64) (gain : option mat3) : t :=
  mk mass
     (match gain with None => np_eye3 | Some g => g end)
     vzero.

(** [total_thrust] is the numpy scalar [compute_total_thrust] returns, so
    every division here is numpy's. *)
Definition update (self : t) (state : state6) (thrust_direction : vec3)
    (total_thrust dt : float64) : outcome (t * vec3) :=
  let velocity := slice_hi state in
  let nominal_accel :=
    vsub (smul (total_thrust / M self) thrust_direction)
         (Fin 0, Fin 0, Fin 9.81) in
  let actual_accel := vdivs velocity dt in
  let error := vsub actual_accel nominal_accel in
  let self' :=
    mk (M self) (gain_matrix self)
       (vadd (estimated_disturbance self)
             (smul dt (np_dot (gain_matrix self) error))) in
  Returned (self', estimated_disturbance self').

(** The locals of [update] as functions of its arguments. *)
Definition nominal_accel (self : t) (thrust_direction : vec3)
    (total_thrust : float64) : vec3 :=
  vsub (smul (total_thrust / M self) thrust_direction) (Fin 0, Fin 0, Fin 9.81).

Definition actual_accel (state : state6) (dt : float64) : vec3 :=
  vdivs (slice_hi state) dt.

Definition error (self : t) (state : state6) (thrust_direction : vec3)
    (total_thrust dt : float64) : vec3 :=
  vsub (actual_accel state dt)
       (nominal_accel self thrust_direction total_thrust).

End DisturbanceObserver.

(** ** fdi_compensator.py *)

Module FDICompensator.

Record t : Type := mk {
  num_rotors : nat;
  threshold : float64;
  rotor_states : list float64   (* 1 for healthy, 0 for faulty *)
}.

(** [__init__(num_rotors=6, threshold=0.1)] *)
Definition init (n : nat) (thr : float64) : t := mk n thr (np_ones n).

Definition init_default : t := init 6 (Fin 0.1).

Definition detect_faults (self : t) (rotor_speeds expected_speeds : list float64)
  : outcome (t * list float64) :=
  diff <- broadcast fsub rotor_speeds expected_speeds ;;
  let error := map fabs diff in
  let self' :=
    mk (num_rotors self) (threshold self)
       (map (fun e => of_bool (flt e (threshold self))) error) in
  Returned (self', rotor_states self').

Definition compensate_thrust (self : t) (desired_thrust : float64)
    (rotor_states : list float64) : outcome (list float64) :=
  let healthy_rotors := np_sum rotor_states in
  if feqb healthy_rotors (Fin 0) then Returned (np_zeros (num_rotors self))
  else
    let base_thrust := (desired_thrust / healthy_rotors)%flt in
    let compensated_speeds :=
      map (fun s => if feqb s (Fin 1) then base_thrust else Fin 0) rotor_states in
    Returned compensated_speeds.

End FDICompensator.

(** ** simulation.py: the body of the loop of [run_simulation] *)

Module Simulation.

Definition step (uav : SixRotorUAV.t) (observer : DisturbanceObserver.t)
    (base_rotor_speeds : list float64) (dt : float64) (disturbance : vec3)
  : outcome (SixRotorUAV.t * DisturbanceObserver.t * (state6 * vec3)) :=
  '(uav1, state) <-
     SixRotorUAV.update_dynamics uav base_rotor_speeds dt disturbance ;;
  thrust_dir <- SixRotorUAV.get_thrust_direction uav1 ;;
  total_thrust <- SixRotorUAV.compute_total_thrust uav1 base_rotor_speeds ;;
  '(observer1, est_disturbance) <-
     DisturbanceObserver.update observer state thrust_dir total_thrust dt ;;
  Returned (uav1, observer1, (state, est_disturbance)).

(** The results dictionary of [run_simulation]. *)
Record results : Type := mkResults {
  times : list float64;
  states : list state6;
  disturbances : list vec3
}.

Definition disturbance_time : float64 := Fin 1.

(** [for t in times: ...], with the two lists the body appends to. *)
Fixpoint loop (ts : list float64) (uav : SixRotorUAV.t)
    (observer : DisturbanceObserver.t) (base_rotor_speeds : list float64)
    (dt : float64) (states : list state6) (disturbances : list vec3)
  : outcome (list state6 * list vec3) :=
  match ts with
  | [] => Returned (states, disturbances)
  | t :: ts' =>
      let disturbance :=
        if fge t disturbance_time then (Fin 0.5, Fin 0.3, Fin 0) else vzero in
      '(uav1, observer1, (state, est_disturbance)) <-
         step uav observer base_rotor_speeds dt disturbance ;;
      loop ts' uav1 observer1 base_rotor_speeds dt
           (states ++ [state]) (disturbances ++ [est_disturbance])
  end.

(** Lines 22 to 65 of [run_simulation], everything after
    [time_steps = int(total_time / dt)] has been computed. *)
Definition run_ticks (time_steps : Z) (total_time dt : R) : outcome results :=
  times <- np_linspace 0 total_time time_steps ;;
  let uav :=
    SixRotorUAV.init (Fin 6) (Fin 9.81) (Fin 0.1, Fin 0.1, Fin 0.1) (Fin 0.05) in
  let observer := DisturbanceObserver.init (Fin 6) None in
  let fdi := FDICompensator.init 6 (Fin 0.1) in
  '(uav, _) <- SixRotorUAV.set_euler_angles uav (Fin 0.1) (Fin 0.05) (Fin 0.2) ;;
  let base_rotor_speeds := repeat (Fin 400) 6 in
  '(states, disturbances) <-
     loop times uav observer base_rotor_speeds (Fin dt) [] [] ;;
  Returned (mkResults times states disturbances).

(** [run_simulation(total_time, dt)] on two finite Python floats.  The
    quotient is taken exactly here; the code rounds it to a [float64] before
    [int] truncates it, so near an integer the number of ticks can differ by
    one from the one of the exact quotient. *)
Definition run_simulation (total_time dt : R) : outcome results :=
  q <- py_truediv total_time dt ;;
  let time_steps := py_int q in
  run_ticks time_steps total_time dt.

(** [run_simulation()]: total_time=2.0, dt=0.01 *)
Definition run_simulation_default : outcome results := run_simulation 2 0.01.

End Simulation.

(** * Vocabulary of the statements *)

(** ** Finite values *)

Definition rvec3 : Type := R * R * R.
Definition rmat3 : Type := rvec3 * rvec3 * rvec3.

Definition FinV (v : rvec3) : vec3 :=
  let '(a, b, c) := v in (Fin a, Fin b, Fin c).

Definition FinM (m : rmat3) : mat3 :=
  let '(r0, r1, r2) := m in (FinV r0, FinV r1, FinV r2).

Definition Rsum (xs : list R) : R := fold_right Rplus 0 xs.

Definition Rsum_sq (ws : list R) : R := Rsum (map (fun w => w * w) ws).

Definition norm3 (v : rvec3) : R :=
  let '(a, b, c) := v in sqrt (a * a + b * b + c * c).

(** ** The vehicle, in the words of the specification *)

(** The third column of the ZYX rotation matrix. *)
Definition body_z_axis (roll pitch yaw : R) : rvec3 :=
  (cos yaw * sin pitch * cos roll + sin yaw * sin roll,
   sin yaw * sin pitch * cos roll - cos yaw * sin roll,
   cos pitch * cos roll).

(** [(P / M) * d - (0, 0, G) - (Gamma . v) / M + disturbance] with
    [Gamma = diag r]. *)
Definition acceleration_R (m g P : R) (r d v w : rvec3) : rvec3 :=
  let '(r0, r1, r2) := r in
  let '(d0, d1, d2) := d in
  let '(v0, v1, v2) := v in
  let '(w0, w1, w2) := w in
  (P / m * d0 - 0 - r0 * v0 / m + w0,
   P / m * d1 - 0 - r1 * v1 / m + w1,
   P / m * d2 - g - r2 * v2 / m + w2).

(** [u + v * dt] *)
Definition euler_R (u v : rvec3) (dt : R) : rvec3 :=
  let '(u0, u1, u2) := u in
  let '(v0, v1, v2) := v in
  (u0 + v0 * dt, u1 + v1 * dt, u2 + v2 * dt).

Definition state_of (pos vel : rvec3) : state6 :=
  let '(x, y, z) := pos in
  let '(vx, vy, vz) := vel in
  mkState (Fin x) (Fin y) (Fin z) (Fin vx) (Fin vy) (Fin vz).

(** ** The observer *)

(** The arguments of one call of [update]. *)
Record call : Type := mkCall {
  c_state : state6;
  c_direction : vec3;
  c_thrust : float64;
  c_dt : float64
}.

(** A sequence of calls on one observer: each call works on the object the
    previous call left. *)
Fixpoint update_many (self : DisturbanceObserver.t) (calls : list call)
  : outcome DisturbanceObserver.t :=
  match calls with
  | [] => Returned self
  | c :: rest =>
      '(self', _) <-
         DisturbanceObserver.update self (c_state c) (c_direction c)
                                    (c_thrust c) (c_dt c) ;;
      update_many self' rest
  end.

(** What one call adds to the estimate, as the specification words it:
    [dt * (gain_matrix . (velocity / dt - ((total_thrust / M) * thrust_direction - (0, 0, 9.81))))]. *)
Definition increment (self : DisturbanceObserver.t) (c : call) : vec3 :=
  smul (c_dt c)
       (np_dot (DisturbanceObserver.gain_matrix self)
               (vsub (vdivs (slice_hi (c_state c)) (c_dt c))
                     (vsub (smul (c_thrust c / DisturbanceObserver.M self)
                                 (c_direction c))
                           (Fin 0, Fin 0, Fin 9.81)))).

(** The same increment on reals. *)
Definition increment_R (m : R) (k : rmat3) (v d : rvec3) (T dt : R) : rvec3 :=
  let '(k0, k1, k2) := k in
  let '(v0, v1, v2) := v in
  let '(d0, d1, d2) := d in
  let e0 := v0 / dt - (T / m * d0 - 0) in
  let e1 := v1 / dt - (T / m * d1 - 0) in
  let e2 := v2 / dt - (T / m * d2 - 9.81) in
  let row := fun (q : rvec3) =>
    let '(q0, q1, q2) := q in q0 * e0 + q1 * e1 + q2 * e2 in
  (dt * row k0, dt * row k1, dt * row k2).

Definition vadd_R (u v : rvec3) : rvec3 :=
  let '(u0, u1, u2) := u in
  let '(v0, v1, v2) := v in
  (u0 + v0, u1 + v1, u2 + v2).

(** a gain matrix of real entries *)
Definition finite_gain (self : DisturbanceObserver.t) : Prop :=
  exists k : rmat3, DisturbanceObserver.gain_matrix self = FinM k.

(** The condition of the fixed point on one call: the timestep is finite and
    the two accelerations are the same vector of reals. *)
Definition zero_error (self : DisturbanceObserver.t) (c : call) : Prop :=
  is_finite (c_dt c) = true /\
  exists a : rvec3,
    DisturbanceObserver.actual_accel (c_state c) (c_dt c) = FinV a /\
    DisturbanceObserver.nominal_accel self (c_direction c) (c_thrust c) = FinV a.

(** The error [update] would form with the gravity term [(0, 0, g)]. *)
Definition error_with_gravity (g : float64) (self : DisturbanceObserver.t)
    (state : state6) (thrust_direction : vec3) (total_thrust dt : float64)
  : vec3 :=
  vsub (DisturbanceObserver.actual_accel state dt)
       (vsub (smul (total_thrust / DisturbanceObserver.M self) thrust_direction)
             (Fin 0, Fin 0, g)).

(** ** The compensator *)

(** The flag [detect_faults] gives to one rotor. *)
Definition flag_of (thr measured expected : float64) : float64 :=
  of_bool (flt (fabs (measured - expected)) thr).

(** A health vector holds flags only, and its healthy rotors are counted. *)
Definition is_flag (h : float64) : Prop := h = Fin 0 \/ h = Fin 1.

Definition healthy_count (health : list float64) : nat :=
  length (filter (fun h => feqb h (Fin 1)) health).

(** ** Further vocabulary *)

(** 3x3 matrices of reals *)
Definition Rinner (u v : rvec3) : R :=
  let '(u0, u1, u2) := u in
  let '(v0, v1, v2) := v in
  u0 * v0 + u1 * v1 + u2 * v2.

Definition Rtranspose (m : rmat3) : rmat3 :=
  let '((a00, a01, a02), (a10, a11, a12), (a20, a21, a22)) := m in
  ((a00, a10, a20), (a01, a11, a21), (a02, a12, a22)).

(** [a . b], entry [(i, j)] being row [i] of [a] times column [j] of [b] *)
Definition Rmat_mul (a b : rmat3) : rmat3 :=
  let '(r0, r1, r2) := a in
  let '(c0, c1, c2) := Rtranspose b in
  ((Rinner r0 c0, Rinner r0 c1, Rinner r0 c2),
   (Rinner r1 c0, Rinner r1 c1, Rinner r1 c2),
   (Rinner r2 c0, Rinner r2 c1, Rinner r2 c2)).

Definition Rid3 : rmat3 := ((1, 0, 0), (0, 1, 0), (0, 0, 1)).

Definition Rdet3 (m : rmat3) : R :=
  let '((a, b, c), (d, e, f), (g, h, i)) := m in
  a * (e * i - f * h) - b * (d * i - f * g) + c * (d * h - e * g).

(** [n] calls of [update_dynamics] with the same arguments, each on the
    object the previous call left. *)
Fixpoint run_dynamics (n : nat) (uav : SixRotorUAV.t)
    (rotor_speeds : list float64) (dt : float64) (disturbance : vec3)
  : outcome SixRotorUAV.t :=
  match n with
  | O => Returned uav
  | S n' =>
      '(uav', _) <- SixRotorUAV.update_dynamics uav rotor_speeds dt disturbance ;;
      run_dynamics n' uav' rotor_speeds dt disturbance
  end.

(** a vehicle whose attributes are all real numbers *)
Definition real_uav (m g p : R) (r pos vel att : rvec3) : SixRotorUAV.t :=
  SixRotorUAV.mk (Fin m) (Fin g) (np_diag (FinV r)) (Fin p) (state_of pos vel)
                 (FinV att).

(** entry by entry product of two vectors of reals *)
Definition Rhadamard (u v : rvec3) : rvec3 :=
  let '(u0, u1, u2) := u in
  let '(v0, v1, v2) := v in
  (u0 * v0, u1 * v1, u2 * v2).

Definition Rscale (c : R) (v : rvec3) : rvec3 :=
  let '(v0, v1, v2) := v in (c * v0, c * v1, c * v2).

(** * Properties *)

(** ** float64 arithmetic on finite values *)

Lemma Req_bool_true (a b : R) : a = b -> Req_bool a b = true.
Proof. intros H. unfold Req_bool. destruct (Req_dec_T a b); [reflexivity | contradiction]. Qed.

Lemma Req_bool_false (a b : R) : a <> b -> Req_bool a b = false.
Proof. intros H. unfold Req_bool. destruct (Req_dec_T a b); [contradiction | reflexivity]. Qed.

Lemma Req_bool_iff (a b : R) : Req_bool a b = true <-> a = b.
Proof.
  unfold Req_bool. destruct (Req_dec_T a b); split; intros; try assumption;
    try reflexivity; try discriminate; contradiction.
Qed.

Lemma Rlt_bool_iff (a b : R) : Rlt_bool a b = true <-> a < b.
Proof.
  unfold Rlt_bool. destruct (Rlt_dec a b); split; intros; try assumption;
    try reflexivity; try discriminate; contradiction.
Qed.

Lemma Rlt_bool_irrefl (a : R) : Rlt_bool a a = false.
Proof.
  destruct (Rlt_bool a a) eqn:E; [| reflexivity].
  apply Rlt_bool_iff in E. lra.
Qed.

Lemma flt_Fin (a b : R) : flt (Fin a) (Fin b) = true <-> a < b.
Proof. apply Rlt_bool_iff. Qed.

Lemma feqb_Fin (a b : R) : feqb (Fin a) (Fin b) = true <-> a = b.
Proof. apply Req_bool_iff. Qed.

Lemma flt_irrefl (a : float64) : flt a a = false.
Proof.
  destruct a as [r | s |]; simpl; [apply Rlt_bool_irrefl | | reflexivity].
  destruct s; reflexivity.
Qed.

Lemma fdiv_Fin (a b : R) : b <> 0 -> (Fin a / Fin b)%flt = Fin (a / b).
Proof. intros H. simpl. rewrite (Req_bool_false _ _ H). reflexivity. Qed.

Lemma Fin_eq (a b : R) : a = b -> Fin a = Fin b.
Proof. intros ->. reflexivity. Qed.

(** Resolve the tests on reals that the float operations make. *)
Ltac real_tests :=
  repeat match goal with
    | |- context [Req_bool ?a ?b] =>
        first [ rewrite (Req_bool_true a b) by lra
              | rewrite (Req_bool_false a b) by lra ]
    | |- context [Rlt_bool ?a ?b] =>
        let E := fresh "E" in
        destruct (Rlt_bool a b) eqn:E;
        [ apply Rlt_bool_iff in E
        | apply not_true_iff_false in E; rewrite Rlt_bool_iff in E ];
        try lra
    end.

Lemma fold_fadd_Fin (xs : list R) (acc : R) :
  fold_left fadd (map Fin xs) (Fin acc) = Fin (acc + Rsum xs).
Proof.
  revert acc. induction xs as [| x xs IH]; intros acc; simpl.
  - apply Fin_eq. lra.
  - rewrite IH. apply Fin_eq. lra.
Qed.

Lemma np_sum_Fin (xs : list R) : np_sum (map Fin xs) = Fin (Rsum xs).
Proof. unfold np_sum. rewrite fold_fadd_Fin. apply Fin_eq. lra. Qed.

(** ** Outcomes *)

Lemma Returned_not_raises {A : Type} (a : A) : ~ raises (Returned a).
Proof. intros [e H]. discriminate H. Qed.

(** ** SixRotorUAV *)

Section Dynamics.

Import SixRotorUAV.

(** The methods of the vehicle model never raise. *)
Lemma get_thrust_direction_returns (uav : t) :
  exists d, get_thrust_direction uav = Returned d.
Proof.
  unfold get_thrust_direction. destruct (euler uav) as [[roll pitch] yaw].
  simpl. eexists. reflexivity.
Qed.

Lemma update_dynamics_returns
    (uav : t) (rotor_speeds : list float64) (dt : float64) (disturbance : vec3) :
  exists uav',
    update_dynamics uav rotor_speeds dt disturbance = Returned (uav', state uav').
Proof.
  destruct (get_thrust_direction_returns uav) as [d Hd].
  unfold update_dynamics. rewrite Hd. cbn [bind compute_total_thrust].
  eexists. reflexivity.
Qed.

(** *** Total thrust *)

Lemma map_square_Fin (ws : list R) :
  map (fun w => (w * w)%flt) (map Fin ws) = map Fin (map (fun w => w * w) ws).
Proof. rewrite !map_map. reflexivity. Qed.

Lemma total_thrust_Fin (uav : t) (p : R) (ws : list R) :
  p_const uav = Fin p ->
  compute_total_thrust uav (map Fin ws) = Returned (Fin (p * Rsum_sq ws)).
Proof.
  intros Hp. unfold compute_total_thrust. rewrite Hp, map_square_Fin, np_sum_Fin.
  reflexivity.
Qed.

Lemma np_zeros_Fin (n : nat) : np_zeros n = map Fin (repeat 0 n).
Proof. unfold np_zeros. induction n as [| n IH]; simpl; [| rewrite IH]; reflexivity. Qed.

Lemma Rsum_sq_zeros (n : nat) : Rsum_sq (repeat 0 n) = 0.
Proof.
  unfold Rsum_sq. induction n as [| n IH]; simpl; [reflexivity |].
  rewrite IH. lra.
Qed.


Lemma Rsum_sq_monotone (ws ws' : list R) :
  Forall2 (fun w w' => Rabs w <= Rabs w') ws ws' -> Rsum_sq ws <= Rsum_sq ws'.
Proof.
  unfold Rsum_sq. induction 1 as [| w w' ws ws' Hw _ IH]; simpl; [lra |].
  apply Rsqr_le_abs_1 in Hw. unfold Rsqr in Hw. lra.
Qed.





(** C6, as the code has it.  An empty rotor-speed sequence raises nothing:
    [np.sum] of an empty array is [0.0], so [compute_total_thrust] returns
    zero thrust for a finite thrust constant, and [update_dynamics] returns
    the step of an all-zero command. *)
Theorem compute_total_thrust_empty :
  (forall (uav : t) (p : R),
      compute_total_thrust (mk (M uav) (G uav) (Gamma uav) (Fin p) (state uav) (euler uav)) []
        = Returned (Fin 0)) /\
  (forall (uav : t) (dt : float64) (disturbance : vec3) (n : nat),
      exists uav',
        update_dynamics uav [] dt disturbance = Returned (uav', state uav') /\
        update_dynamics uav (np_zeros n) dt disturbance = Returned (uav', state uav')).
Proof.
  split.
  - intros uav p. unfold compute_total_thrust. cbn. apply f_equal, Fin_eq. lra.
  - intros uav dt disturbance n.
    destruct (update_dynamics_returns uav [] dt disturbance) as [uav' Hstep].
    exists uav'. split; [exact Hstep |]. rewrite <- Hstep.
    unfold update_dynamics, compute_total_thrust.
    rewrite np_zeros_Fin, map_square_Fin, np_sum_Fin.
    fold (Rsum_sq (repeat 0 n)). rewrite Rsum_sq_zeros. reflexivity.
Qed.

(** The default vehicle, called with no rotor speed at all, returns zero
    thrust. *)
Lemma compute_total_thrust_empty_returns :
  compute_total_thrust init_default [] = Returned (Fin 0) /\
  ~ raises (compute_total_thrust init_default []).
Proof.
  split.
  - unfold compute_total_thrust. cbn. apply f_equal, Fin_eq. lra.
  - apply Returned_not_raises.
Qed.

(** *** Thrust direction *)

Lemma get_thrust_direction_Fin (uav : t) (roll pitch yaw : R) :
  euler uav = (Fin roll, Fin pitch, Fin yaw) ->
  get_thrust_direction uav = Returned (FinV (body_z_axis roll pitch yaw)).
Proof.
  intros He. unfold get_thrust_direction. rewrite He.
  unfold rotation_matrix, body_z_axis, FinV, column2, bind, fsin, fcos.
  unfold fsub, fneg, fmul, fadd. reflexivity.
Qed.

Lemma sin_cos_square (x : R) : sin x * sin x + cos x * cos x = 1.
Proof. pose proof (sin2_cos2 x) as H. unfold Rsqr in H. exact H. Qed.

Lemma body_z_axis_unit (roll pitch yaw : R) :
  norm3 (body_z_axis roll pitch yaw) = 1.
Proof.
  unfold norm3, body_z_axis.
  pose proof (sin_cos_square roll) as Hr.
  pose proof (sin_cos_square pitch) as Hp.
  pose proof (sin_cos_square yaw) as Hy.
  set (cr := cos roll) in *. set (sr := sin roll) in *.
  set (cp := cos pitch) in *. set (sp := sin pitch) in *.
  set (cy := cos yaw) in *. set (sy := sin yaw) in *.
  replace ((cy * sp * cr + sy * sr) * (cy * sp * cr + sy * sr)
           + (sy * sp * cr - cy * sr) * (sy * sp * cr - cy * sr)
           + cp * cr * (cp * cr))
    with ((sp * sp * (cr * cr) + sr * sr) * (sy * sy + cy * cy)
          + cp * cp * (cr * cr)) by ring.
  rewrite Hy, Rmult_1_r.
  replace (sp * sp * (cr * cr) + sr * sr + cp * cp * (cr * cr))
    with ((sp * sp + cp * cp) * (cr * cr) + sr * sr) by ring.
  rewrite Hp, Rmult_1_l.
  replace (cr * cr + sr * sr) with 1 by lra.
  apply sqrt_1.
Qed.

Lemma body_z_axis_level : body_z_axis 0 0 0 = (0, 0, 1).
Proof.
  unfold body_z_axis. rewrite cos_0, sin_0.
  repeat (apply f_equal2); lra.
Qed.

(** C9. At every attitude [(roll, pitch, yaw)] the vector
    [get_thrust_direction] returns is the third column of the ZYX rotation
    matrix and has Euclidean norm 1; at [roll = pitch = yaw = 0] it is
    [(0, 0, 1)]. *)
Theorem get_thrust_direction_unit_norm :
  (forall (uav : t) (roll pitch yaw : R),
      exists (uav' : t) (d : rvec3),
        set_euler_angles uav (Fin roll) (Fin pitch) (Fin yaw) = Returned (uav', tt) /\
        get_thrust_direction uav' = Returned (FinV d) /\
        d = body_z_axis roll pitch yaw /\
        norm3 d = 1) /\
  (forall (uav : t),
      exists (uav' : t),
        set_euler_angles uav (Fin 0) (Fin 0) (Fin 0) = Returned (uav', tt) /\
        get_thrust_direction uav' = Returned (Fin 0, Fin 0, Fin 1)) /\
  (forall (mass g p : float64) (air_resistance : vec3),
      get_thrust_direction (init mass g air_resistance p)
        = Returned (Fin 0, Fin 0, Fin 1)).
Proof.
  split; [| split].
  - intros uav roll pitch yaw. eexists. exists (body_z_axis roll pitch yaw).
    split; [reflexivity |]. split; [| split].
    + apply get_thrust_direction_Fin. reflexivity.
    + reflexivity.
    + apply body_z_axis_unit.
  - intros uav. eexists. split; [reflexivity |].
    rewrite (get_thrust_direction_Fin _ 0 0 0) by reflexivity.
    rewrite body_z_axis_level. reflexivity.
  - intros mass g p air_resistance.
    rewrite (get_thrust_direction_Fin _ 0 0 0) by reflexivity.
    rewrite body_z_axis_level. reflexivity.
Qed.

(** *** The Euler step *)

Lemma update_dynamics_steps
    (uav : t) (rotor_speeds : list float64) (dt : float64) (disturbance : vec3)
    (P_bar : float64) (d : vec3) :
  compute_total_thrust uav rotor_speeds = Returned P_bar ->
  get_thrust_direction uav = Returned d ->
  let v := slice_hi (state uav) in
  let acceleration :=
    vadd (vsub (vsub (smul (P_bar / M uav) d) (Fin 0, Fin 0, G uav))
               (vdivs (np_dot (Gamma uav) v) (M uav)))
         disturbance in
  exists uav',
    update_dynamics uav rotor_speeds dt disturbance
      = Returned (uav', state uav') /\
    slice_lo (state uav') = vadd (slice_lo (state uav)) (vmuls v dt) /\
    slice_hi (state uav') = vadd v (vmuls acceleration dt) /\
    (M uav', G uav', Gamma uav', p_const uav', euler uav')
      = (M uav, G uav, Gamma uav, p_const uav, euler uav).
Proof.
  intros HP Hd. cbv zeta. unfold update_dynamics. rewrite HP, Hd.
  cbn [bind]. eexists. split; [reflexivity |].
  destruct uav as [m g Gam p [x y z vx vy vz] e]; cbn.
  destruct d as [[d0 d1] d2], disturbance as [[w0 w1] w2],
    Gam as [[[[g00 g01] g02] [[g10 g11] g12]] [[g20 g21] g22]].
  cbn. repeat split.
Qed.

(** C1. [update_dynamics] is one forward-Euler step.  With
    [P_bar = p_const * sum(speed^2)], [d] the thrust direction of the current
    attitude and [v] the velocity before the step, the acceleration is
    [(P_bar / M) * d - (0, 0, G) - (Gamma . v) / M + disturbance], the new
    position is the old position plus [v * dt], the new velocity is [v] plus
    [acceleration * dt], the other attributes are untouched, and the method
    returns the state it stored.  On real numbers and a mass that is not zero
    these are the real formulas. *)
Theorem update_dynamics_euler_step :
  (forall (uav : t) (rotor_speeds : list float64) (dt : float64)
          (disturbance : vec3),
      exists (P_bar : float64) (d : vec3) (uav' : t),
        compute_total_thrust uav rotor_speeds = Returned P_bar /\
        P_bar = (p_const uav * np_sum (map (fun w => w * w) rotor_speeds))%flt /\
        get_thrust_direction uav = Returned d /\
        let v := slice_hi (state uav) in
        let acceleration :=
          vadd (vsub (vsub (smul (P_bar / M uav) d) (Fin 0, Fin 0, G uav))
                     (vdivs (np_dot (Gamma uav) v) (M uav)))
               disturbance in
        update_dynamics uav rotor_speeds dt disturbance
          = Returned (uav', state uav') /\
        slice_lo (state uav') = vadd (slice_lo (state uav)) (vmuls v dt) /\
        slice_hi (state uav') = vadd v (vmuls acceleration dt) /\
        (M uav', G uav', Gamma uav', p_const uav', euler uav')
          = (M uav, G uav, Gamma uav, p_const uav, euler uav)) /\
  (forall (m g p dt roll pitch yaw : R) (r pos vel w : rvec3) (ws : list R),
      m <> 0 ->
      let uav :=
        mk (Fin m) (Fin g) (np_diag (FinV r)) (Fin p) (state_of pos vel)
           (FinV (roll, pitch, yaw)) in
      let a :=
        acceleration_R m g (p * Rsum_sq ws) r (body_z_axis roll pitch yaw) vel w in
      exists uav',
        update_dynamics uav (map Fin ws) (Fin dt) (FinV w)
          = Returned (uav', state uav') /\
        state uav' = state_of (euler_R pos vel dt) (euler_R vel a dt)).
Proof.
  split.
  - intros uav rotor_speeds dt disturbance.
    destruct (get_thrust_direction_returns uav) as [d Hd].
    destruct (update_dynamics_steps uav rotor_speeds dt disturbance _ d
                eq_refl Hd) as (uav' & Hstep).
    eexists. exists d, uav'.
    split; [reflexivity |]. split; [reflexivity |]. split; [exact Hd |].
    exact Hstep.
  - intros m g p dt roll pitch yaw r pos vel w ws Hm uav a.
    unfold update_dynamics.
    rewrite (total_thrust_Fin uav p ws eq_refl).
    rewrite (get_thrust_direction_Fin uav roll pitch yaw eq_refl).
    cbn [bind]. eexists. split; [reflexivity |].
    subst a uav. unfold acceleration_R.
    destruct (body_z_axis roll pitch yaw) as [[d0 d1] d2].
    destruct r as [[r0 r1] r2], pos as [[x y] z], vel as [[vx vy] vz],
      w as [[w0 w1] w2].
    cbn. rewrite !(Req_bool_false m 0 Hm). cbn.
    f_equal; apply Fin_eq; field; exact Hm.
Qed.

(** Free fall: no rotor speed, no air resistance, one step of a hundredth
    of a second from rest at height 10. *)
Lemma update_dynamics_euler_step_witness :
  exists uav',
    update_dynamics
      (mk (Fin 1) (Fin 9.81) (np_diag (FinV (0, 0, 0))) (Fin 1)
          (state_of (0, 0, 10) (0, 0, 0)) (FinV (0, 0, 0)))
      (map Fin [0; 0; 0; 0; 0; 0]) (Fin 0.01) (FinV (0, 0, 0))
    = Returned (uav', state uav') /\
    state uav' = state_of (0, 0, 10) (0, 0, - (9.81 * 0.01)).
Proof.
  assert (H1 : (1 : R) <> 0) by lra.
  destruct (proj2 update_dynamics_euler_step 1 9.81 1 0.01 0 0 0
              (0, 0, 0) (0, 0, 10) (0, 0, 0) (0, 0, 0) [0; 0; 0; 0; 0; 0] H1)
    as (uav' & Hcall & Hstate).
  exists uav'. split; [exact Hcall |]. rewrite Hstate.
  rewrite body_z_axis_level. unfold acceleration_R, euler_R, state_of, Rsum_sq.
  cbn. f_equal; apply Fin_eq; lra.
Defined.

End Dynamics.

(** ** DisturbanceObserver *)

Section Observer.

Import DisturbanceObserver.

Lemma update_returns (self : t) (c : call) :
  update self (c_state c) (c_direction c) (c_thrust c) (c_dt c)
  = Returned (mk (M self) (gain_matrix self)
                 (vadd (estimated_disturbance self) (increment self c)),
              vadd (estimated_disturbance self) (increment self c)).
Proof. reflexivity. Qed.

Lemma update_many_accumulates (calls : list call) : forall (self : t),
  exists self',
    update_many self calls = Returned self' /\
    M self' = M self /\
    gain_matrix self' = gain_matrix self /\
    estimated_disturbance self'
      = fold_left vadd (map (increment self) calls) (estimated_disturbance self).
Proof.
  induction calls as [| c rest IH]; intros self.
  - exists self. repeat split.
  - cbn [update_many]. rewrite update_returns. cbn [bind].
    destruct (IH (mk (M self) (gain_matrix self)
                     (vadd (estimated_disturbance self) (increment self c))))
      as (self' & Hrun & HM & HK & Hest).
    exists self'. split; [exact Hrun |]. cbn in HM, HK, Hest.
    split; [exact HM |]. split; [exact HK |].
    rewrite Hest. cbn [map fold_left]. reflexivity.
Qed.

Lemma update_on_reals (m T dt : R) (k : rmat3) (e pos vel d : rvec3) :
  m <> 0 -> dt <> 0 ->
  update (mk (Fin m) (FinM k) (FinV e)) (state_of pos vel) (FinV d) (Fin T) (Fin dt)
  = Returned (mk (Fin m) (FinM k) (FinV (vadd_R e (increment_R m k vel d T dt))),
              FinV (vadd_R e (increment_R m k vel d T dt))).
Proof.
  intros Hm Hdt.
  destruct k as [[[[k00 k01] k02] [[k10 k11] k12]] [[k20 k21] k22]].
  destruct e as [[e0 e1] e2], pos as [[x y] z], vel as [[vx vy] vz],
    d as [[d0 d1] d2].
  unfold update, error, actual_accel, nominal_accel.
  cbn. rewrite !(Req_bool_false m 0 Hm), !(Req_bool_false dt 0 Hdt). cbn.
  assert (E : forall (mass : float64) (K : mat3) (a b c a' b' c' : R),
              a = a' -> b = b' -> c = c' ->
              Returned (mk mass K (Fin a, Fin b, Fin c), (Fin a, Fin b, Fin c))
              = Returned (mk mass K (Fin a', Fin b', Fin c'),
                          (Fin a', Fin b', Fin c'))).
  { intros; subst; reflexivity. }
  apply E; ring.
Qed.

(** C2. One call of [update] adds
    [dt * (gain_matrix . (velocity / dt - ((total_thrust / M) * thrust_direction - (0, 0, 9.81))))]
    to the stored estimate and returns the stored estimate; mass and gain
    stay as they are.  On real numbers, a timestep and a mass that are not
    zero, this is the real formula.  Over any sequence of calls the estimate
    is the value it had before plus every increment, and construction is the
    only place that sets it, to [(0, 0, 0)]. *)
Theorem update_accumulates_estimate :
  (forall (self : t) (state : state6) (thrust_direction : vec3)
          (total_thrust dt : float64),
      exists self',
        update self state thrust_direction total_thrust dt
          = Returned (self', estimated_disturbance self') /\
        estimated_disturbance self'
          = vadd (estimated_disturbance self)
                 (smul dt
                    (np_dot (gain_matrix self)
                       (vsub (vdivs (slice_hi state) dt)
                             (vsub (smul (total_thrust / M self) thrust_direction)
                                   (Fin 0, Fin 0, Fin 9.81))))) /\
        M self' = M self /\
        gain_matrix self' = gain_matrix self) /\
  (forall (m T dt : R) (k : rmat3) (e pos vel d : rvec3),
      m <> 0 -> dt <> 0 ->
      exists self',
        update (mk (Fin m) (FinM k) (FinV e)) (state_of pos vel) (FinV d)
               (Fin T) (Fin dt)
          = Returned (self', estimated_disturbance self') /\
        estimated_disturbance self'
          = FinV (vadd_R e (increment_R m k vel d T dt))) /\
  (forall (self : t) (calls : list call),
      exists self',
        update_many self calls = Returned self' /\
        estimated_disturbance self'
          = fold_left vadd (map (increment self) calls) (estimated_disturbance self)) /\
  (forall (mass : float64) (gain : option mat3),
      estimated_disturbance (init mass gain) = vzero).
Proof.
  split; [| split; [| split]].
  - intros self state thrust_direction total_thrust dt.
    eexists. split; [reflexivity |]. cbn. repeat split.
  - intros m T dt k e pos vel d Hm Hdt.
    exists (mk (Fin m) (FinM k) (FinV (vadd_R e (increment_R m k vel d T dt)))).
    split; [apply update_on_reals; assumption | reflexivity].
  - intros self calls.
    destruct (update_many_accumulates calls self) as (self' & Hrun & _ & _ & Hest).
    exists self'. split; assumption.
  - intros mass gain. reflexivity.
Qed.

(** The observer of the simulation (mass 6, identity gain) at its first
    tick: hover thrust, a sideways velocity of 0.5, a timestep of 0.01. *)
Lemma update_accumulates_estimate_witness :
  exists self',
    update (init (Fin 6) None) (state_of (0, 0, 0) (0.5, 0, 0))
           (Fin 0, Fin 0, Fin 1) (Fin 58.86) (Fin 0.01)
    = Returned (self', estimated_disturbance self') /\
    estimated_disturbance self' = (Fin 0.5, Fin 0, Fin 0).
Proof.
  assert (H6 : (6 : R) <> 0) by lra.
  assert (Hdt : (0.01 : R) <> 0) by lra.
  destruct (proj1 (proj2 update_accumulates_estimate) 6 58.86 0.01
              ((1, 0, 0), (0, 1, 0), (0, 0, 1)) (0, 0, 0) (0, 0, 0)
              (0.5, 0, 0) (0, 0, 1) H6 Hdt)
    as (self' & Hcall & Hest).
  exists self'. split; [exact Hcall |]. rewrite Hest.
  unfold vadd_R, increment_R, FinV.
  repeat (apply f_equal2); apply Fin_eq; lra.
Defined.

(** *** A zero timestep *)

Lemma fdiv_zero_not_finite (a : float64) : is_finite (a / Fin 0) = false.
Proof.
  destruct a as [r | s |]; simpl; [| reflexivity | reflexivity].
  rewrite (Req_bool_true 0 0 eq_refl). destruct (Req_bool r 0); reflexivity.
Qed.

Lemma fsub_not_finite_l (a b : float64) :
  is_finite a = false -> is_finite (a - b) = false.
Proof.
  destruct a as [r | s |]; simpl; intros H; [discriminate | | reflexivity].
  destruct b as [r' | s' |]; simpl; [reflexivity | | reflexivity].
  destruct s, s'; reflexivity.
Qed.

Lemma fmul_not_finite_r (a b : float64) :
  is_finite b = false -> is_finite (a * b) = false.
Proof.
  destruct b as [r | s |]; simpl; intros H; [discriminate | |].
  - destruct a as [r' | s' |]; simpl; [| reflexivity | reflexivity].
    destruct (Req_bool r' 0); reflexivity.
  - destruct a; reflexivity.
Qed.

Lemma fadd_not_finite (a b : float64) :
  is_finite a = false -> is_finite (a + b) = false.
Proof.
  destruct a as [r | s |]; simpl; intros H; [discriminate | | reflexivity].
  destruct b as [r' | s' |]; simpl; [reflexivity | | reflexivity].
  destruct (Bool.eqb s s'); reflexivity.
Qed.

Lemma fmul_zero_not_finite (a : float64) :
  is_finite a = false -> (Fin 0 * a)%flt = NaN.
Proof.
  destruct a as [r | s |]; simpl; intros H; [discriminate | | reflexivity].
  rewrite (Req_bool_true 0 0 eq_refl). reflexivity.
Qed.

Lemma fadd_NaN_r (a : float64) : (a + NaN)%flt = NaN.
Proof. destruct a; reflexivity. Qed.

Lemma inner_not_finite (row v : vec3) :
  is_finite (fst (fst v)) = false -> is_finite (inner row v) = false.
Proof.
  destruct row as [[k0 k1] k2], v as [[e0 e1] e2]. cbn [fst inner]. intros H.
  apply fadd_not_finite, fadd_not_finite, fmul_not_finite_r. exact H.
Qed.

Lemma error_zero_dt_not_finite (self : t) (state : state6)
    (thrust_direction : vec3) (total_thrust : float64) :
  is_finite (fst (fst (error self state thrust_direction total_thrust (Fin 0))))
  = false.
Proof.
  unfold error, actual_accel, nominal_accel.
  destruct state as [x y z vx vy vz], thrust_direction as [[d0 d1] d2].
  cbn [slice_hi vdivs smul vsub vmap2 fst s_vx s_vy s_vz].
  apply fsub_not_finite_l, fdiv_zero_not_finite.
Qed.

(** C7, as the code has it.  With [dt == 0] no exception reaches the caller:
    numpy's division returns [inf] or [nan], and [update] returns normally.
    Every component of the estimate it stores and returns is [nan], whatever
    the state, the thrust, the mass, the gain and the estimate before were:
    no finite estimate comes out. *)
Theorem update_zero_dt_gives_nan
    (self : t) (state : state6) (thrust_direction : vec3) (total_thrust : float64) :
  exists self',
    update self state thrust_direction total_thrust (Fin 0)
      = Returned (self', (NaN, NaN, NaN)) /\
    estimated_disturbance self' = (NaN, NaN, NaN) /\
    ~ raises (update self state thrust_direction total_thrust (Fin 0)).
Proof.
  pose proof (error_zero_dt_not_finite self state thrust_direction total_thrust)
    as Herr.
  unfold update.
  set (err := error self state thrust_direction total_thrust (Fin 0)) in *.
  destruct (gain_matrix self) as [[row0 row1] row2] eqn:HK.
  destruct (estimated_disturbance self) as [[e0 e1] e2] eqn:He.
  cbn [np_dot smul vadd vmap2 estimated_disturbance].
  rewrite !(fmul_zero_not_finite _ (inner_not_finite _ err Herr)), !fadd_NaN_r.
  eexists. split; [reflexivity |]. split; [reflexivity |].
  apply Returned_not_raises.
Qed.

(** A call with [dt == 0] returns; it does not raise. *)
Lemma update_zero_dt_does_not_raise :
  ~ raises (update (init (Fin 1) None)
                   (mkState (Fin 0) (Fin 0) (Fin 10) (Fin 1) (Fin 0) (Fin (-2)))
                   (Fin 0, Fin 0, Fin 1) (Fin 0) (Fin 0)) /\
  exists self',
    update (init (Fin 1) None)
           (mkState (Fin 0) (Fin 0) (Fin 10) (Fin 1) (Fin 0) (Fin (-2)))
           (Fin 0, Fin 0, Fin 1) (Fin 0) (Fin 0)
    = Returned (self', (NaN, NaN, NaN)).
Proof.
  split; [apply Returned_not_raises |].
  unfold update, error, actual_accel, nominal_accel, init, np_eye3.
  cbn. real_tests. cbn. real_tests. cbn. eexists. reflexivity.
Qed.

(** *** Zero error *)

Lemma init_finite_gain (mass : float64) (gain : option rmat3) :
  finite_gain (init mass (option_map FinM gain)).
Proof.
  destruct gain as [k |]; cbn.
  - exists k. reflexivity.
  - exists ((1, 0, 0), (0, 1, 0), (0, 0, 1)). reflexivity.
Qed.

Lemma increment_is_error (self : t) (c : call) :
  increment self c
  = smul (c_dt c)
         (np_dot (gain_matrix self)
                 (error self (c_state c) (c_direction c) (c_thrust c) (c_dt c))).
Proof. reflexivity. Qed.

Lemma zero_error_keeps_estimate (self : t) (c : call) (e : rvec3) :
  finite_gain self ->
  estimated_disturbance self = FinV e ->
  zero_error self c ->
  vadd (estimated_disturbance self) (increment self c) = FinV e.
Proof.
  intros [k HK] He [Hdt (a & Hact & Hnom)].
  rewrite increment_is_error. unfold error. rewrite Hact, Hnom, HK, He.
  destruct (c_dt c) as [dt | |]; try discriminate Hdt.
  destruct k as [[[[k00 k01] k02] [[k10 k11] k12]] [[k20 k21] k22]].
  destruct a as [[a0 a1] a2], e as [[e0 e1] e2].
  cbn. repeat (apply f_equal2); apply Fin_eq; ring.
Qed.

Lemma zero_error_fixed_point_from (calls : list call) : forall (self : t) (e : rvec3),
  finite_gain self ->
  estimated_disturbance self = FinV e ->
  Forall (zero_error self) calls ->
  exists self',
    update_many self calls = Returned self' /\
    estimated_disturbance self' = FinV e.
Proof.
  induction calls as [| c rest IH]; intros self e HK He Hall.
  - exists self. split; [reflexivity | exact He].
  - inversion Hall as [| c' rest' Hc Hrest]; subst.
    cbn [update_many]. rewrite update_returns. cbn [bind].
    apply IH.
    + exact HK.
    + cbn. apply zero_error_keeps_estimate; assumption.
    + exact Hrest.
Qed.

(** C8. Take an observer as constructed, with the default gain or with any
    gain matrix of real entries.  After any finite sequence of [update] calls
    in each of which the actual acceleration [velocity / dt] equals the
    nominal acceleration, the accumulated estimate is the initial
    [(0, 0, 0)]. *)
Theorem zero_error_fixed_point
    (mass : float64) (gain : option rmat3) (calls : list call) :
  Forall (zero_error (init mass (option_map FinM gain))) calls ->
  exists self',
    update_many (init mass (option_map FinM gain)) calls = Returned self' /\
    estimated_disturbance self' = vzero.
Proof.
  intros Hall.
  apply (zero_error_fixed_point_from calls _ (0, 0, 0)).
  - apply init_finite_gain.
  - reflexivity.
  - exact Hall.
Qed.

(** Two ticks of a vehicle of mass 2 that climbs at a constant
    acceleration of 1: thrust 21.62 along the vertical, velocity 0.5 after
    half a second and 2 after two seconds. *)
Lemma zero_error_fixed_point_witness :
  exists self',
    update_many (init (Fin 2) None)
      [ mkCall (mkState (Fin 0) (Fin 0) (Fin 0) (Fin 0) (Fin 0) (Fin 0.5))
               (Fin 0, Fin 0, Fin 1) (Fin 21.62) (Fin 0.5);
        mkCall (mkState (Fin 0) (Fin 0) (Fin 1) (Fin 0) (Fin 0) (Fin 2))
               (Fin 0, Fin 0, Fin 1) (Fin 21.62) (Fin 2) ]
    = Returned self' /\
    estimated_disturbance self' = vzero.
Proof.
  apply (zero_error_fixed_point (Fin 2) None).
  repeat constructor; exists (0, 0, 1);
    unfold actual_accel, nominal_accel; cbn; real_tests;
    split; repeat (apply f_equal2); try reflexivity; apply Fin_eq; lra.
Defined.

(** *** The gravity constant of the observer *)

Lemma step_returns (uav : SixRotorUAV.t) (observer : t)
    (speeds : list float64) (dt : float64) (disturbance : vec3) :
  exists uav1 d T,
    SixRotorUAV.update_dynamics uav speeds dt disturbance
      = Returned (uav1, SixRotorUAV.state uav1) /\
    SixRotorUAV.get_thrust_direction uav1 = Returned d /\
    SixRotorUAV.compute_total_thrust uav1 speeds = Returned T /\
    Simulation.step uav observer speeds dt disturbance
      = bind (update observer (SixRotorUAV.state uav1) d T dt)
             (fun r => Returned (uav1, fst r, (SixRotorUAV.state uav1, snd r))).
Proof.
  destruct (update_dynamics_returns uav speeds dt disturbance) as [uav1 Hdyn].
  destruct (get_thrust_direction_returns uav1) as [d Hd].
  exists uav1, d. eexists.
  split; [exact Hdyn |]. split; [exact Hd |]. split; [reflexivity |].
  unfold Simulation.step. rewrite Hdyn. cbn [bind]. rewrite Hd. reflexivity.
Qed.

(** C10. The gravity term of the observer is the literal [(0, 0, 9.81)]: the
    observer has no gravity attribute and its constructor takes none.  In a
    tick of the simulation the estimate grows by the increment formed with
    9.81, whatever gravity constant the vehicle carries.  Against the error
    formed with a gravity constant [g], the error of the observer differs by
    [(0, 0, g - 9.81)]: its third component is lower by [g - 9.81]. *)
Theorem observer_gravity_is_9_81 :
  (forall (self : t) (thrust_direction : vec3) (total_thrust : float64),
      nominal_accel self thrust_direction total_thrust
      = vsub (smul (total_thrust / M self) thrust_direction)
             (Fin 0, Fin 0, Fin 9.81)) /\
  (forall (uav : SixRotorUAV.t) (observer : t) (speeds : list float64)
          (dt : float64) (disturbance : vec3),
      exists uav1 observer1 d T,
        Simulation.step uav observer speeds dt disturbance
          = Returned (uav1, observer1,
                      (SixRotorUAV.state uav1, estimated_disturbance observer1)) /\
        SixRotorUAV.get_thrust_direction uav1 = Returned d /\
        SixRotorUAV.compute_total_thrust uav1 speeds = Returned T /\
        estimated_disturbance observer1
          = vadd (estimated_disturbance observer)
                 (smul dt
                    (np_dot (gain_matrix observer)
                       (vsub (actual_accel (SixRotorUAV.state uav1) dt)
                             (vsub (smul (T / M observer) d)
                                   (Fin 0, Fin 0, Fin 9.81)))))) /\
  (forall (self : t) (state : state6) (thrust_direction : vec3)
          (total_thrust dt : float64) (g ex ey ez : R),
      error self state thrust_direction total_thrust dt = (Fin ex, Fin ey, Fin ez) ->
      error_with_gravity (Fin g) self state thrust_direction total_thrust dt
      = (Fin ex, Fin ey, Fin (ez + (g - 9.81)))).
Proof.
  split; [| split].
  - intros self thrust_direction total_thrust. reflexivity.
  - intros uav observer speeds dt disturbance.
    destruct (step_returns uav observer speeds dt disturbance)
      as (uav1 & d & T & _ & Hd & HT & Hstep).
    exists uav1. eexists. exists d, T.
    split; [rewrite Hstep; reflexivity |].
    split; [exact Hd |]. split; [exact HT |]. reflexivity.
  - intros self state thrust_direction total_thrust dt g ex ey ez.
    unfold error_with_gravity, error, nominal_accel.
    destruct (actual_accel state dt) as [[a0 a1] a2].
    destruct (smul (total_thrust / M self) thrust_direction) as [[n0 n1] n2].
    cbn [vsub vmap2]. intros H. injection H as H0 H1 H2.
    rewrite H0, H1. apply f_equal.
    destruct a2 as [a | sa |], n2 as [n | sn |]; cbn in H2 |- *;
      try discriminate H2;
      try (destruct sa; discriminate H2);
      try (destruct sa, sn; discriminate H2).
    injection H2 as H2. apply Fin_eq. lra.
Qed.

Lemma observer_gravity_is_9_81_witness :
  error_with_gravity (Fin 10) (init (Fin 1) None)
    (mkState (Fin 0) (Fin 0) (Fin 0) (Fin 0) (Fin 0) (Fin 1))
    (Fin 0, Fin 0, Fin 1) (Fin 10) (Fin 1)
  = (Fin 0, Fin 0, Fin (0.81 + (10 - 9.81))).
Proof.
  apply (proj2 (proj2 observer_gravity_is_9_81)).
  unfold error, actual_accel, nominal_accel. cbn. real_tests. cbn.
  repeat (apply f_equal2); try reflexivity; apply Fin_eq; lra.
Defined.

End Observer.

(** ** FDICompensator *)

Section FDI.

Import FDICompensator.

(** *** Fault detection *)

Lemma broadcast_same_length {C : Type} (f : float64 -> float64 -> C)
    (xs ys : list float64) :
  length xs = length ys -> broadcast f xs ys = Returned (zip_with f xs ys).
Proof. intros H. unfold broadcast. rewrite H, Nat.eqb_refl. reflexivity. Qed.

Lemma zip_with_length {A B C : Type} (f : A -> B -> C) (xs : list A) :
  forall ys : list B, length xs = length ys -> length (zip_with f xs ys) = length xs.
Proof.
  induction xs as [| x xs IH]; intros [| y ys] H; simpl in *; try discriminate;
    [reflexivity |].
  f_equal. apply IH. lia.
Qed.

Lemma zip_with_nth_error {A B C : Type} (f : A -> B -> C) (xs : list A) :
  forall (ys : list B) (k : nat) (x : A) (y : B),
    nth_error xs k = Some x -> nth_error ys k = Some y ->
    nth_error (zip_with f xs ys) k = Some (f x y).
Proof.
  induction xs as [| x0 xs IH]; intros [| y0 ys] [| k] x y Hx Hy; simpl in *;
    try discriminate.
  - injection Hx as ->. injection Hy as ->. reflexivity.
  - apply IH; assumption.
Qed.

Lemma Fin_1_neq_0 : Fin 1 <> Fin 0.
Proof. intros H. injection H as H. lra. Qed.

Lemma detect_faults_same_length (self : t) (measured expected : list float64) :
  length measured = length expected ->
  detect_faults self measured expected
  = Returned (mk (num_rotors self) (threshold self)
                 (zip_with (flag_of (threshold self)) measured expected),
              zip_with (flag_of (threshold self)) measured expected).
Proof.
  intros H. unfold detect_faults. rewrite (broadcast_same_length _ _ _ H).
  cbn [bind rotor_states]. rewrite map_map.
  assert (E : map (fun x => of_bool (flt (fabs x) (threshold self)))
                  (zip_with fsub measured expected)
              = zip_with (flag_of (threshold self)) measured expected).
  { clear H. revert expected.
    induction measured as [| m ms IH]; intros [| e es]; simpl; try reflexivity.
    rewrite IH. reflexivity. }
  rewrite E. reflexivity.
Qed.

(** C5. On two speed sequences of one length [detect_faults] stores and
    returns one flag per rotor: [1] exactly when
    [|measured_k - expected_k| < threshold], [0] otherwise.  The test is
    strict: an absolute error equal to the threshold gives [0]. *)
Theorem detect_faults_strict_threshold
    (self : t) (measured expected : list float64) :
  length measured = length expected ->
  exists self',
    detect_faults self measured expected = Returned (self', rotor_states self') /\
    num_rotors self' = num_rotors self /\
    threshold self' = threshold self /\
    length (rotor_states self') = length measured /\
    forall (k : nat) (m e : float64),
      nth_error measured k = Some m ->
      nth_error expected k = Some e ->
      exists flag,
        nth_error (rotor_states self') k = Some flag /\
        (flag = Fin 1 <-> flt (fabs (m - e)) (threshold self) = true) /\
        (flag = Fin 0 <-> flt (fabs (m - e)) (threshold self) = false) /\
        (forall rm re rt : R,
            m = Fin rm -> e = Fin re -> threshold self = Fin rt ->
            (flag = Fin 1 <-> Rabs (rm - re) < rt)) /\
        (fabs (m - e) = threshold self -> flag = Fin 0).
Proof.
  intros Hlen.
  exists (mk (num_rotors self) (threshold self)
             (zip_with (flag_of (threshold self)) measured expected)).
  split; [apply detect_faults_same_length; exact Hlen |].
  cbn [num_rotors threshold rotor_states].
  split; [reflexivity |]. split; [reflexivity |].
  split; [apply zip_with_length; exact Hlen |].
  intros k m e Hm He. exists (flag_of (threshold self) m e).
  split; [apply zip_with_nth_error; assumption |].
  assert (H1 : flag_of (threshold self) m e = Fin 1
               <-> flt (fabs (m - e)) (threshold self) = true).
  { unfold flag_of. destruct (flt (fabs (m - e)) (threshold self)); cbn; split;
      intros H; try reflexivity; try discriminate H.
    symmetry in H. destruct (Fin_1_neq_0 H). }
  split; [exact H1 |]. split; [| split].
  - unfold flag_of. destruct (flt (fabs (m - e)) (threshold self)); cbn; split;
      intros H; try reflexivity; try discriminate H.
    destruct (Fin_1_neq_0 H).
  - intros rm re rt -> -> Hthr. rewrite H1, Hthr. cbn [fsub fneg fadd fabs].
    rewrite flt_Fin. reflexivity.
  - intros Heq. unfold flag_of. rewrite Heq, flt_irrefl. reflexivity.
Qed.

(** Three rotors against the default threshold 0.1: the second one is off by
    the threshold itself. *)
Lemma detect_faults_strict_threshold_witness :
  exists self',
    detect_faults init_default [Fin 400; Fin 399.9; Fin 380] [Fin 400; Fin 400; Fin 400]
    = Returned (self', rotor_states self') /\
    nth_error (rotor_states self') 1 = Some (Fin 0).
Proof.
  destruct (detect_faults_strict_threshold init_default
              [Fin 400; Fin 399.9; Fin 380] [Fin 400; Fin 400; Fin 400] eq_refl)
    as (self' & Hcall & _ & _ & _ & Hflags).
  exists self'. split; [exact Hcall |].
  destruct (Hflags 1%nat (Fin 399.9) (Fin 400) eq_refl eq_refl)
    as (flag & Hnth & _ & _ & _ & Hboundary).
  rewrite Hnth. f_equal. apply Hboundary.
  cbn. apply Fin_eq. rewrite Rabs_left; lra.
Defined.

(** *** Thrust compensation *)

Lemma feqb_0_1 : feqb (Fin 0) (Fin 1) = false.
Proof. cbn. apply Req_bool_false. lra. Qed.

Lemma feqb_1_1 : feqb (Fin 1) (Fin 1) = true.
Proof. cbn. apply Req_bool_true. reflexivity. Qed.

Lemma fold_fadd_flags (health : list float64) : forall acc : R,
  Forall is_flag health ->
  fold_left fadd health (Fin acc) = Fin (acc + INR (healthy_count health)).
Proof.
  unfold healthy_count.
  induction health as [| h hs IH]; intros acc Hall.
  - cbn. apply Fin_eq. lra.
  - inversion Hall as [| h' hs' Hh Hhs]; subst.
    destruct Hh as [-> | ->]; cbn [fold_left filter fadd].
    + rewrite feqb_0_1, (IH _ Hhs). apply Fin_eq. lra.
    + rewrite feqb_1_1, (IH _ Hhs). cbn [length]. rewrite S_INR.
      apply Fin_eq. lra.
Qed.

Lemma np_sum_flags (health : list float64) :
  Forall is_flag health -> np_sum health = Fin (INR (healthy_count health)).
Proof.
  intros Hall. unfold np_sum. rewrite (fold_fadd_flags _ _ Hall).
  apply Fin_eq. lra.
Qed.

Lemma sum_is_zero_iff (health : list float64) :
  Forall is_flag health ->
  feqb (np_sum health) (Fin 0) = true <-> healthy_count health = 0%nat.
Proof.
  intros Hall. rewrite (np_sum_flags _ Hall), feqb_Fin. split.
  - intros H. apply INR_eq. exact H.
  - intros ->. reflexivity.
Qed.

Lemma compensate_thrust_none_healthy (self : t) (desired : float64)
    (health : list float64) :
  Forall is_flag health -> healthy_count health = 0%nat ->
  compensate_thrust self desired health = Returned (np_zeros (num_rotors self)).
Proof.
  intros Hall Hzero. unfold compensate_thrust.
  rewrite (proj2 (sum_is_zero_iff _ Hall) Hzero). reflexivity.
Qed.

Lemma compensate_thrust_some_healthy (self : t) (desired : float64)
    (health : list float64) :
  Forall is_flag health -> healthy_count health <> 0%nat ->
  compensate_thrust self desired health
  = Returned
      (map (fun h => if feqb h (Fin 1)
                     then (desired / Fin (INR (healthy_count health)))%flt
                     else Fin 0)
           health).
Proof.
  intros Hall Hsome. unfold compensate_thrust.
  destruct (feqb (np_sum health) (Fin 0)) eqn:E.
  - apply (sum_is_zero_iff _ Hall) in E. contradiction.
  - rewrite (np_sum_flags _ Hall). reflexivity.
Qed.

(** C3. Let the health vector hold [num_rotors] flags, each 0 or 1.  When
    their sum is 0, [compensate_thrust] returns [num_rotors] zeros.
    Otherwise it returns one value per rotor: the desired thrust divided by
    the number of healthy rotors where the flag is 1, and 0 where the flag is
    0.  With six rotors, health [1, 1, 1, 0, 0, 0] and desired thrust 300 the
    result is [100, 100, 100, 0, 0, 0]. *)
Theorem compensate_thrust_equal_split :
  (forall (self : t) (desired : float64) (health : list float64),
      length health = num_rotors self ->
      Forall is_flag health ->
      np_sum health = Fin (INR (healthy_count health)) /\
      (healthy_count health = 0%nat ->
       exists out,
         compensate_thrust self desired health = Returned out /\
         length out = num_rotors self /\
         forall k : nat,
           (k < num_rotors self)%nat -> nth_error out k = Some (Fin 0)) /\
      (healthy_count health <> 0%nat ->
       exists out,
         compensate_thrust self desired health = Returned out /\
         length out = num_rotors self /\
         forall k : nat,
           (nth_error health k = Some (Fin 1) ->
            nth_error out k
            = Some (desired / Fin (INR (healthy_count health)))%flt) /\
           (nth_error health k = Some (Fin 0) ->
            nth_error out k = Some (Fin 0)))) /\
  compensate_thrust init_default (Fin 300)
    [Fin 1; Fin 1; Fin 1; Fin 0; Fin 0; Fin 0]
  = Returned [Fin 100; Fin 100; Fin 100; Fin 0; Fin 0; Fin 0].
Proof.
  split.
  - intros self desired health Hlen Hall.
    split; [apply np_sum_flags; exact Hall |]. split.
    + intros Hzero. exists (np_zeros (num_rotors self)).
      split; [apply compensate_thrust_none_healthy; assumption |].
      split; [apply repeat_length |].
      intros k Hk. unfold np_zeros. generalize (num_rotors self) as n, k, Hk.
      clear. intros n. induction n as [| n IH]; intros [| k] Hk; cbn;
        try lia; [reflexivity |]. apply IH. lia.
    + intros Hsome. eexists.
      split; [apply compensate_thrust_some_healthy; assumption |].
      split; [rewrite length_map; exact Hlen |].
      intros k. split; intros Hk; rewrite nth_error_map, Hk; cbn [option_map].
      * rewrite feqb_1_1. reflexivity.
      * rewrite feqb_0_1. reflexivity.
  - assert (Hall : Forall is_flag [Fin 1; Fin 1; Fin 1; Fin 0; Fin 0; Fin 0]).
    { repeat constructor; (left; reflexivity) || (right; reflexivity). }
    rewrite (compensate_thrust_some_healthy init_default (Fin 300) _ Hall).
    + cbn [map]. rewrite feqb_0_1, feqb_1_1.
      unfold healthy_count. cbn [filter]. rewrite feqb_0_1, feqb_1_1.
      cbn [length INR]. rewrite fdiv_Fin by lra.
      replace (300 / (1 + 1 + 1)) with 100 by lra. reflexivity.
    + unfold healthy_count. cbn [filter]. rewrite feqb_0_1, feqb_1_1.
      cbn [length]. discriminate.
Qed.

(** Four rotors, the second one faulty, desired thrust 90; then all four
    faulty. *)
Lemma compensate_thrust_equal_split_witness :
  (exists out,
      compensate_thrust (init 4 (Fin 0.1)) (Fin 90) [Fin 1; Fin 0; Fin 1; Fin 1]
      = Returned out /\
      length out = 4%nat /\
      nth_error out 0 = Some (Fin 90 / Fin (INR 3))%flt /\
      nth_error out 1 = Some (Fin 0)) /\
  (exists out,
      compensate_thrust (init 4 (Fin 0.1)) (Fin 90) [Fin 0; Fin 0; Fin 0; Fin 0]
      = Returned out /\
      length out = 4%nat /\
      nth_error out 3 = Some (Fin 0)).
Proof.
  split.
  - assert (Hall : Forall is_flag [Fin 1; Fin 0; Fin 1; Fin 1]).
    { repeat constructor; (left; reflexivity) || (right; reflexivity). }
    assert (Hcount : healthy_count [Fin 1; Fin 0; Fin 1; Fin 1] = 3%nat).
    { unfold healthy_count. cbn [filter]. rewrite feqb_0_1, feqb_1_1. reflexivity. }
    destruct (proj1 compensate_thrust_equal_split (init 4 (Fin 0.1)) (Fin 90)
                [Fin 1; Fin 0; Fin 1; Fin 1] eq_refl Hall)
      as (_ & _ & Hsome).
    rewrite Hcount in Hsome.
    destruct (Hsome ltac:(discriminate)) as (out & Hcall & Hlen & Hk).
    exists out. split; [exact Hcall |]. split; [exact Hlen |]. split.
    + apply (proj1 (Hk 0%nat)). reflexivity.
    + apply (proj2 (Hk 1%nat)). reflexivity.
  - assert (Hall : Forall is_flag [Fin 0; Fin 0; Fin 0; Fin 0]).
    { repeat constructor; left; reflexivity. }
    assert (Hcount : healthy_count [Fin 0; Fin 0; Fin 0; Fin 0] = 0%nat).
    { unfold healthy_count. cbn [filter]. rewrite feqb_0_1. reflexivity. }
    destruct (proj1 compensate_thrust_equal_split (init 4 (Fin 0.1)) (Fin 90)
                [Fin 0; Fin 0; Fin 0; Fin 0] eq_refl Hall)
      as (_ & Hnone & _).
    destruct (Hnone Hcount) as (out & Hcall & Hlen & Hk).
    exists out. split; [exact Hcall |]. split; [exact Hlen |].
    apply Hk. cbn. lia.
Defined.

End FDI.

(** * Further properties of the code *)

From Stdlib Require Import Permutation RNsatz.

(** ** The rotation matrix *)

Section Rotation.

Import SixRotorUAV.

Lemma rotation_matrix_Fin (uav : t) (roll pitch yaw : R) :
  rotation_matrix uav (Fin roll) (Fin pitch) (Fin yaw)
  = Returned
      (FinM ((cos yaw * cos pitch,
              cos yaw * sin pitch * sin roll - sin yaw * cos roll,
              cos yaw * sin pitch * cos roll + sin yaw * sin roll),
             (sin yaw * cos pitch,
              sin yaw * sin pitch * sin roll + cos yaw * cos roll,
              sin yaw * sin pitch * cos roll - cos yaw * sin roll),
             (- sin pitch, cos pitch * sin roll, cos pitch * cos roll))).
Proof. reflexivity. Qed.

Lemma rmat3_eq (a b : rmat3) :
  (let '((a00, a01, a02), (a10, a11, a12), (a20, a21, a22)) := a in
   let '((b00, b01, b02), (b10, b11, b12), (b20, b21, b22)) := b in
   a00 = b00 /\ a01 = b01 /\ a02 = b02 /\
   a10 = b10 /\ a11 = b11 /\ a12 = b12 /\
   a20 = b20 /\ a21 = b21 /\ a22 = b22) ->
  a = b.
Proof.
  destruct a as [[[[a00 a01] a02] [[a10 a11] a12]] [[a20 a21] a22]].
  destruct b as [[[[b00 b01] b02] [[b10 b11] b12]] [[b20 b21] b22]].
  intros (-> & -> & -> & -> & -> & -> & -> & -> & ->). reflexivity.
Qed.

(** X1. At every attitude of real angles [rotation_matrix] returns an
    orthogonal matrix of determinant 1: its rows are orthonormal, its columns
    are orthonormal, and it preserves orientation. *)
Theorem rotation_matrix_is_rotation (uav : t) (roll pitch yaw : R) :
  exists m : rmat3,
    rotation_matrix uav (Fin roll) (Fin pitch) (Fin yaw) = Returned (FinM m) /\
    Rmat_mul m (Rtranspose m) = Rid3 /\
    Rmat_mul (Rtranspose m) m = Rid3 /\
    Rdet3 m = 1.
Proof.
  eexists. split; [apply rotation_matrix_Fin |].
  pose proof (sin_cos_square roll) as Hr.
  pose proof (sin_cos_square pitch) as Hp.
  pose proof (sin_cos_square yaw) as Hy.
  set (cr := cos roll) in *. set (sr := sin roll) in *.
  set (cp := cos pitch) in *. set (sp := sin pitch) in *.
  set (cy := cos yaw) in *. set (sy := sin yaw) in *.
  split; [| split].
  - apply rmat3_eq. cbn. repeat split; nsatz.
  - apply rmat3_eq. cbn. repeat split; nsatz.
  - cbn. nsatz.
Qed.

End Rotation.

(** ** More on the vehicle model *)

Section DynamicsMore.

Import SixRotorUAV.

Lemma update_dynamics_on_reals (m g p dt : R) (r pos vel att w : rvec3)
    (ws : list R) :
  m <> 0 ->
  update_dynamics (real_uav m g p r pos vel att) (map Fin ws) (Fin dt) (FinV w)
  = let '(roll, pitch, yaw) := att in
    let a :=
      acceleration_R m g (p * Rsum_sq ws) r (body_z_axis roll pitch yaw) vel w in
    let s' := state_of (euler_R pos vel dt) (euler_R vel a dt) in
    Returned (with_state (real_uav m g p r pos vel att) s', s').
Proof.
  intros Hm. destruct att as [[roll pitch] yaw].
  unfold update_dynamics.
  rewrite (total_thrust_Fin (real_uav m g p r pos vel (roll, pitch, yaw)) p ws
             eq_refl).
  rewrite (get_thrust_direction_Fin (real_uav m g p r pos vel (roll, pitch, yaw))
             roll pitch yaw eq_refl).
  cbn [bind]. unfold acceleration_R.
  destruct (body_z_axis roll pitch yaw) as [[d0 d1] d2].
  destruct r as [[r0 r1] r2], pos as [[x y] z], vel as [[vx vy] vz],
    w as [[w0 w1] w2].
  cbn. rewrite !(Req_bool_false m 0 Hm). cbn.
  assert (E : forall (u : t) (s s' : state6), s = s' ->
              Returned (with_state u s, s) = Returned (with_state u s', s')).
  { intros u s s' ->. reflexivity. }
  apply (E (real_uav m g p (r0, r1, r2) (x, y, z) (vx, vy, vz) (roll, pitch, yaw))).
  f_equal; apply Fin_eq; field; exact Hm.
Qed.

Lemma with_state_real_uav (m g p : R) (r pos vel att pos' vel' : rvec3) :
  with_state (real_uav m g p r pos vel att) (state_of pos' vel')
  = real_uav m g p r pos' vel' att.
Proof. reflexivity. Qed.

(** *** What the thrust depends on *)

Lemma Rsum_sq_permutation (ws ws' : list R) :
  Permutation ws ws' -> Rsum_sq ws = Rsum_sq ws'.
Proof.
  unfold Rsum_sq, Rsum.
  induction 1 as [| w l l' _ IH | w w' l | l l' l'' _ IH1 _ IH2]; simpl.
  - reflexivity.
  - rewrite IH. reflexivity.
  - lra.
  - rewrite IH1. exact IH2.
Qed.

Lemma Rsum_sq_magnitudes (ws ws' : list R) :
  Forall2 (fun w w' => Rabs w = Rabs w') ws ws' -> Rsum_sq ws = Rsum_sq ws'.
Proof.
  intros H. apply Rle_antisym; apply Rsum_sq_monotone.
  - induction H as [| w w' l l' Hw _ IH]; constructor; [rewrite Hw; lra | exact IH].
  - induction H as [| w w' l l' Hw _ IH]; constructor; [rewrite Hw; lra | exact IH].
Qed.

(** X2. The total thrust depends on the speeds through their squares
    only: reordering the rotors or changing the sign of any speed leaves
    [compute_total_thrust] unchanged. *)
Theorem compute_total_thrust_order_and_sign (uav : t) (ws ws' : list R) :
  (Permutation ws ws' \/ Forall2 (fun w w' => Rabs w = Rabs w') ws ws') ->
  compute_total_thrust uav (map Fin ws) = compute_total_thrust uav (map Fin ws').
Proof.
  intros H. unfold compute_total_thrust.
  rewrite !map_square_Fin, !np_sum_Fin.
  fold (Rsum_sq ws) (Rsum_sq ws').
  destruct H as [H | H].
  - rewrite (Rsum_sq_permutation _ _ H). reflexivity.
  - rewrite (Rsum_sq_magnitudes _ _ H). reflexivity.
Qed.

Lemma compute_total_thrust_order_and_sign_witness :
  compute_total_thrust init_default (map Fin [400; 300; 200])
  = compute_total_thrust init_default (map Fin [200; 400; 300])
  /\ compute_total_thrust init_default (map Fin [400; 300; 200])
     = compute_total_thrust init_default (map Fin [-400; 300; -200]).
Proof.
  split.
  - apply compute_total_thrust_order_and_sign. left.
    apply Permutation_sym, (Permutation_cons_app [400; 300] []).
    apply Permutation_refl.
  - apply compute_total_thrust_order_and_sign. right.
    repeat (apply Forall2_cons); try apply Forall2_nil; unfold Rabs;
      repeat match goal with |- context [Rcase_abs ?x] => destruct (Rcase_abs x) end;
      lra.
Defined.

(** *** A zero timestep and a zero mass *)



(** *** Hover and free fall *)

Lemma real_uav_eq (m g p : R) (r att : rvec3)
    (x y z vx vy vz x' y' z' vx' vy' vz' : R) :
  x = x' -> y = y' -> z = z' -> vx = vx' -> vy = vy' -> vz = vz' ->
  real_uav m g p r (x, y, z) (vx, vy, vz) att
  = real_uav m g p r (x', y', z') (vx', vy', vz') att.
Proof. intros; subst; reflexivity. Qed.

Lemma run_dynamics_step (n : nat) (m g p dt : R) (r pos vel att w : rvec3)
    (ws : list R) :
  m <> 0 ->
  run_dynamics (S n) (real_uav m g p r pos vel att) (map Fin ws) (Fin dt) (FinV w)
  = let '(roll, pitch, yaw) := att in
    let a :=
      acceleration_R m g (p * Rsum_sq ws) r (body_z_axis roll pitch yaw) vel w in
    run_dynamics n (real_uav m g p r (euler_R pos vel dt) (euler_R vel a dt) att)
                 (map Fin ws) (Fin dt) (FinV w).
Proof.
  intros Hm. cbn [run_dynamics].
  rewrite (update_dynamics_on_reals m g p dt r pos vel att w ws Hm).
  destruct att as [[roll pitch] yaw]. cbv zeta. cbn [bind].
  rewrite with_state_real_uav. reflexivity.
Qed.

(** X4. Hover is a fixed point of the integrator.  At level attitude, at
    rest, without disturbance and with rotor speeds whose total thrust
    equals the weight [M * G], any number of [update_dynamics] calls, with any
    timestep, leaves the vehicle exactly as it was. *)
Theorem hover_is_fixed_point
    (n : nat) (m g p dt : R) (r pos : rvec3) (ws : list R) :
  m <> 0 ->
  p * Rsum_sq ws = m * g ->
  run_dynamics n (real_uav m g p r pos (0, 0, 0) (0, 0, 0)) (map Fin ws) (Fin dt)
               (FinV (0, 0, 0))
  = Returned (real_uav m g p r pos (0, 0, 0) (0, 0, 0)).
Proof.
  intros Hm Hthrust. induction n as [| n IH]; [reflexivity |].
  rewrite (run_dynamics_step n m g p dt r pos (0, 0, 0) (0, 0, 0) (0, 0, 0) ws Hm).
  cbv zeta. rewrite body_z_axis_level, Hthrust.
  destruct r as [[r0 r1] r2], pos as [[x y] z].
  cbn [acceleration_R euler_R].
  etransitivity; [| exact IH]. f_equal.
  apply real_uav_eq; field; exact Hm.
Qed.

Lemma hover_is_fixed_point_witness :
  run_dynamics 3 (real_uav 6 10 0.1 (0.1, 0.1, 0.1) (0, 0, 5) (0, 0, 0) (0, 0, 0))
               (map Fin [10; 10; 10; 10; 10; 10]) (Fin 0.01) (FinV (0, 0, 0))
  = Returned (real_uav 6 10 0.1 (0.1, 0.1, 0.1) (0, 0, 5) (0, 0, 0) (0, 0, 0)).
Proof.
  apply hover_is_fixed_point; [lra |].
  unfold Rsum_sq, Rsum. cbn. lra.
Defined.

(** X5. Free flight.  Without thrust, air resistance and disturbance, [n]
    Euler steps of size [dt] take position [q] and velocity [v] to
    [q + n*dt*v - (0, 0, G*dt^2*n*(n-1)/2)] and [v - (0, 0, n*dt*G)], at any
    attitude. *)
Theorem free_flight_closed_form
    (n : nat) (m g p dt : R) (att : rvec3) (ws : list R)
    (x y z vx vy vz : R) :
  m <> 0 ->
  p * Rsum_sq ws = 0 ->
  run_dynamics n (real_uav m g p (0, 0, 0) (x, y, z) (vx, vy, vz) att)
               (map Fin ws) (Fin dt) (FinV (0, 0, 0))
  = Returned
      (real_uav m g p (0, 0, 0)
         (x + INR n * dt * vx,
          y + INR n * dt * vy,
          z + INR n * dt * vz - g * (dt * dt) * (INR n * (INR n - 1) / 2))
         (vx, vy, vz - INR n * dt * g)
         att).
Proof.
  intros Hm Hthrust. revert x y z vx vy vz.
  induction n as [| n IH]; intros x y z vx vy vz.
  - cbn [run_dynamics INR]. f_equal. apply real_uav_eq; field.
  - rewrite (run_dynamics_step n m g p dt (0, 0, 0) (x, y, z) (vx, vy, vz) att
               (0, 0, 0) ws Hm).
    destruct att as [[roll pitch] yaw]. cbv zeta. rewrite Hthrust.
    destruct (body_z_axis roll pitch yaw) as [[d0 d1] d2].
    cbn [acceleration_R euler_R]. rewrite IH. f_equal.
    rewrite S_INR. apply real_uav_eq; field; exact Hm.
Qed.

Lemma free_flight_closed_form_witness :
  run_dynamics 10 (real_uav 1 9.81 1 (0, 0, 0) (0, 0, 100) (2, 0, 0) (0, 0, 0))
               (map Fin [0; 0; 0; 0; 0; 0]) (Fin 0.1) (FinV (0, 0, 0))
  = Returned
      (real_uav 1 9.81 1 (0, 0, 0)
         (0 + INR 10 * 0.1 * 2,
          0 + INR 10 * 0.1 * 0,
          100 + INR 10 * 0.1 * 0 - 9.81 * (0.1 * 0.1) * (INR 10 * (INR 10 - 1) / 2))
         (2, 0, 0 - INR 10 * 0.1 * 9.81)
         (0, 0, 0)).
Proof.
  apply free_flight_closed_form; [lra |].
  unfold Rsum_sq, Rsum. cbn. lra.
Defined.

(** *** What a step keeps, and a zero mass *)

Lemma update_dynamics_keeps (uav uav' : t) (rotor_speeds : list float64)
    (dt : float64) (disturbance : vec3) (s : state6) :
  update_dynamics uav rotor_speeds dt disturbance = Returned (uav', s) ->
  M uav' = M uav /\ G uav' = G uav /\ Gamma uav' = Gamma uav /\
  p_const uav' = p_const uav /\ euler uav' = euler uav.
Proof.
  destruct (get_thrust_direction_returns uav) as [d Hd].
  unfold update_dynamics. rewrite Hd. cbn [bind compute_total_thrust].
  intros H. injection H as H _. subst uav'. repeat split.
Qed.

(** X6. The integrator never touches the attitude or the constants of the
    vehicle: after any number of [update_dynamics] calls the thrust direction
    and the total thrust of every rotor command are what they were before. *)
Theorem run_dynamics_keeps_thrust (n : nat) : forall (uav uav' : t)
    (rotor_speeds : list float64) (dt : float64) (disturbance : vec3),
  run_dynamics n uav rotor_speeds dt disturbance = Returned uav' ->
  get_thrust_direction uav' = get_thrust_direction uav /\
  (forall speeds, compute_total_thrust uav' speeds = compute_total_thrust uav speeds) /\
  (M uav', G uav', Gamma uav') = (M uav, G uav, Gamma uav).
Proof.
  induction n as [| n IH]; intros uav uav' rotor_speeds dt disturbance Hrun.
  - injection Hrun as ->. repeat split.
  - cbn [run_dynamics] in Hrun.
    destruct (update_dynamics uav rotor_speeds dt disturbance)
      as [[uav1 s1] | e] eqn:Hstep; [| discriminate Hrun].
    cbn [bind] in Hrun.
    destruct (update_dynamics_keeps _ _ _ _ _ _ Hstep) as (HM & HG & HGam & Hp & He).
    destruct (IH _ _ _ _ _ Hrun) as (Hd & HT & Hc).
    split; [| split].
    + rewrite Hd. unfold get_thrust_direction. rewrite He. reflexivity.
    + intros speeds. rewrite HT. unfold compute_total_thrust. rewrite Hp. reflexivity.
    + rewrite Hc, HM, HG, HGam. reflexivity.
Qed.

Lemma run_dynamics_returns (n : nat) : forall (uav : t)
    (rotor_speeds : list float64) (dt : float64) (disturbance : vec3),
  exists uav', run_dynamics n uav rotor_speeds dt disturbance = Returned uav'.
Proof.
  induction n as [| n IH]; intros uav rotor_speeds dt disturbance.
  - exists uav. reflexivity.
  - cbn [run_dynamics].
    destruct (update_dynamics_returns uav rotor_speeds dt disturbance) as [uav1 H1].
    rewrite H1. cbn [bind]. apply IH.
Qed.

Lemma run_dynamics_keeps_thrust_witness :
  exists uav',
    run_dynamics 2 init_default [Fin 400; Fin 400] (Fin 0.01) vzero = Returned uav' /\
    get_thrust_direction uav' = get_thrust_direction init_default.
Proof.
  destruct (run_dynamics_returns 2 init_default [Fin 400; Fin 400] (Fin 0.01) vzero)
    as [uav' Hrun].
  exists uav'. split; [exact Hrun |].
  apply (run_dynamics_keeps_thrust 2 _ _ _ _ _ Hrun).
Defined.

Lemma fadd_not_finite_r (a b : float64) :
  is_finite b = false -> is_finite (a + b) = false.
Proof.
  destruct b as [r | s |]; simpl; intros H; [discriminate | |].
  - destruct a as [r' | s' |]; simpl; [reflexivity | | reflexivity].
    destruct (Bool.eqb s' s); reflexivity.
  - destruct a; reflexivity.
Qed.

Lemma fsub_not_finite_r (a b : float64) :
  is_finite b = false -> is_finite (a - b) = false.
Proof.
  intros H. unfold fsub. apply fadd_not_finite_r.
  destruct b; [discriminate H | reflexivity | reflexivity].
Qed.

Lemma fmul_not_finite_l (a b : float64) :
  is_finite a = false -> is_finite (a * b) = false.
Proof.
  destruct a as [r | s |]; simpl; intros H; [discriminate | | reflexivity].
  destruct b as [r' | s' |]; simpl; [| reflexivity | reflexivity].
  destruct (Req_bool r' 0); reflexivity.
Qed.

(** X7. A mass of zero is not refused.  [update_dynamics] on a vehicle of
    mass 0 raises nothing and returns normally, and the three velocity
    components of the state it returns and stores are [inf], [-inf] or
    [nan], whatever the other inputs are. *)
Theorem zero_mass_gives_no_finite_velocity
    (uav : t) (rotor_speeds : list float64) (dt : float64) (disturbance : vec3) :
  M uav = Fin 0 ->
  exists uav',
    update_dynamics uav rotor_speeds dt disturbance = Returned (uav', state uav') /\
    is_finite (s_vx (state uav')) = false /\
    is_finite (s_vy (state uav')) = false /\
    is_finite (s_vz (state uav')) = false.
Proof.
  intros HM.
  destruct (get_thrust_direction_returns uav) as [d Hd].
  unfold update_dynamics. rewrite Hd. cbn [bind compute_total_thrust].
  eexists. split; [reflexivity |]. rewrite HM.
  destruct uav as [m g Gam p [x y z vx vy vz] e]; cbn.
  destruct d as [[d0 d1] d2], disturbance as [[w0 w1] w2],
    Gam as [[[[g00 g01] g02] [[g10 g11] g12]] [[g20 g21] g22]].
  cbn.
  repeat split;
    apply fadd_not_finite_r, fmul_not_finite_l, fadd_not_finite,
      fsub_not_finite_r, fdiv_zero_not_finite.
Qed.

Lemma zero_mass_gives_no_finite_velocity_witness :
  exists uav',
    update_dynamics (init (Fin 0) (Fin 9.81) (Fin 0.1, Fin 0.1, Fin 0.1) (Fin 1))
                    [Fin 400] (Fin 0.01) vzero
      = Returned (uav', state uav') /\
    is_finite (s_vx (state uav')) = false /\
    is_finite (s_vy (state uav')) = false /\
    is_finite (s_vz (state uav')) = false.
Proof.
  apply zero_mass_gives_no_finite_velocity. reflexivity.
Defined.

End DynamicsMore.

(** ** More on the observer *)

Section ObserverMore.

Import DisturbanceObserver.

Lemma update_zero_dt_estimate (self : t) (c : call) :
  c_dt c = Fin 0 ->
  vadd (estimated_disturbance self) (increment self c) = (NaN, NaN, NaN).
Proof.
  intros Hdt. rewrite increment_is_error, Hdt.
  pose proof (error_zero_dt_not_finite self (c_state c) (c_direction c) (c_thrust c))
    as Herr.
  set (err := error self (c_state c) (c_direction c) (c_thrust c) (Fin 0)) in *.
  destruct (gain_matrix self) as [[row0 row1] row2].
  destruct (estimated_disturbance self) as [[e0 e1] e2].
  cbn [np_dot smul vadd vmap2].
  rewrite !(fmul_zero_not_finite _ (inner_not_finite _ err Herr)), !fadd_NaN_r.
  reflexivity.
Qed.

Lemma nan_estimate_stays (calls : list call) : forall (self : t),
  estimated_disturbance self = (NaN, NaN, NaN) ->
  exists self',
    update_many self calls = Returned self' /\
    estimated_disturbance self' = (NaN, NaN, NaN).
Proof.
  induction calls as [| c rest IH]; intros self Hnan.
  - exists self. split; [reflexivity | exact Hnan].
  - cbn [update_many]. rewrite update_returns. cbn [bind].
    apply IH. cbn [estimated_disturbance]. rewrite Hnan.
    destruct (increment self c) as [[i0 i1] i2]. reflexivity.
Qed.

(** X8. The observer never recovers from a zero timestep.  Once a call of
    [update] with [dt = 0] has been made, every later call, whatever its
    arguments, returns the estimate [(nan, nan, nan)]: only a new observer
    gives finite estimates again. *)
Theorem zero_dt_poisons_observer
    (self : t) (before after : list call) (c : call) :
  c_dt c = Fin 0 ->
  exists self',
    update_many self (before ++ c :: after) = Returned self' /\
    estimated_disturbance self' = (NaN, NaN, NaN).
Proof.
  intros Hdt. revert self.
  induction before as [| b rest IH]; intros self.
  - cbn [app update_many]. rewrite update_returns. cbn [bind].
    apply nan_estimate_stays. cbn [estimated_disturbance].
    apply update_zero_dt_estimate. exact Hdt.
  - cbn [app update_many]. rewrite update_returns. cbn [bind]. apply IH.
Qed.

Lemma zero_dt_poisons_observer_witness :
  exists self',
    update_many (init (Fin 6) None)
      ([ mkCall (state_of (0, 0, 0) (0, 0, 1)) (Fin 0, Fin 0, Fin 1) (Fin 60) (Fin 0.01) ]
       ++ mkCall (state_of (0, 0, 0) (0, 0, 1)) (Fin 0, Fin 0, Fin 1) (Fin 60) (Fin 0)
       :: [ mkCall (state_of (0, 0, 0) (0, 0, 1)) (Fin 0, Fin 0, Fin 1) (Fin 60) (Fin 0.01) ])
    = Returned self' /\
    estimated_disturbance self' = (NaN, NaN, NaN).
Proof.
  apply zero_dt_poisons_observer. reflexivity.
Defined.

(** X9. With the default gain (the identity) the observer adds the measured
    velocity itself, less [dt] times the nominal acceleration: on real
    values, a timestep and a mass that are not zero, the estimate [e] becomes
    [e + velocity - dt * ((total_thrust / M) * thrust_direction - (0, 0, 9.81))]. *)
Theorem default_gain_adds_velocity
    (m T dt : R) (e pos d : rvec3) (vx vy vz : R) :
  m <> 0 -> dt <> 0 ->
  exists self',
    update (mk (Fin m) (gain_matrix (init (Fin m) None)) (FinV e))
           (state_of pos (vx, vy, vz)) (FinV d) (Fin T) (Fin dt)
      = Returned (self', estimated_disturbance self') /\
    estimated_disturbance self'
      = let '(e0, e1, e2) := e in
        let '(d0, d1, d2) := d in
        FinV (e0 + vx - dt * (T / m * d0),
              e1 + vy - dt * (T / m * d1),
              e2 + vz - dt * (T / m * d2 - 9.81)).
Proof.
  intros Hm Hdt.
  change (gain_matrix (init (Fin m) None)) with (FinM Rid3).
  rewrite (update_on_reals m T dt Rid3 e pos (vx, vy, vz) d Hm Hdt).
  exists (mk (Fin m) (FinM Rid3)
             (FinV (vadd_R e (increment_R m Rid3 (vx, vy, vz) d T dt)))).
  split; [reflexivity |]. cbn [estimated_disturbance].
  destruct e as [[e0 e1] e2], d as [[d0 d1] d2].
  unfold vadd_R, increment_R, Rid3, FinV.
  repeat (apply f_equal2); apply Fin_eq; field; repeat split; assumption.
Qed.

Lemma default_gain_adds_velocity_witness :
  exists self',
    update (mk (Fin 6) (gain_matrix (init (Fin 6) None)) (FinV (0, 0, 0)))
           (state_of (0, 0, 0) (0.5, 0, 0)) (FinV (0, 0, 1)) (Fin 58.86) (Fin 0.01)
      = Returned (self', estimated_disturbance self') /\
    estimated_disturbance self'
      = FinV (0 + 0.5 - 0.01 * (58.86 / 6 * 0),
              0 + 0 - 0.01 * (58.86 / 6 * 0),
              0 + 0 - 0.01 * (58.86 / 6 * 1 - 9.81)).
Proof.
  apply (default_gain_adds_velocity 6 58.86 0.01 (0, 0, 0) (0, 0, 0) (0, 0, 1)
           0.5 0 0); lra.
Defined.

(** *** One tick of the simulation *)

(** X10. What the observer sees in a tick.  Take a vehicle and an observer of
    the same mass, the default gain, real values, a timestep and a mass that
    are not zero.  In one tick ([update_dynamics], then [update] on the state
    it returns) the estimate [e] grows by
    [v - dt * (r . v) / M + dt * w - dt * (0, 0, G - 9.81)], where [v] is the
    velocity before the tick, [r] the air resistance and [w] the disturbance:
    the thrust cancels, the velocity does not. *)
Theorem step_estimate_increment
    (m g p dt : R) (r pos att w e : rvec3) (ws : list R) (vx vy vz : R) :
  m <> 0 -> dt <> 0 ->
  exists uav1 observer1,
    Simulation.step (real_uav m g p r pos (vx, vy, vz) att)
                    (mk (Fin m) (gain_matrix (init (Fin m) None)) (FinV e))
                    (map Fin ws) (Fin dt) (FinV w)
      = Returned (uav1, observer1,
                  (SixRotorUAV.state uav1, estimated_disturbance observer1)) /\
    estimated_disturbance observer1
      = let '(e0, e1, e2) := e in
        let '(r0, r1, r2) := r in
        let '(w0, w1, w2) := w in
        FinV (e0 + vx - dt * (r0 * vx) / m + dt * w0,
              e1 + vy - dt * (r1 * vy) / m + dt * w1,
              e2 + vz - dt * (r2 * vz) / m + dt * w2 - dt * (g - 9.81)).
Proof.
  intros Hm Hdt. unfold Simulation.step.
  rewrite (update_dynamics_on_reals m g p dt r pos (vx, vy, vz) att w ws Hm).
  destruct att as [[roll pitch] yaw]. cbv zeta. cbn [bind].
  rewrite with_state_real_uav.
  set (a := acceleration_R m g (p * Rsum_sq ws) r (body_z_axis roll pitch yaw)
              (vx, vy, vz) w).
  set (uav1 := real_uav m g p r (euler_R pos (vx, vy, vz) dt)
                        (euler_R (vx, vy, vz) a dt) (roll, pitch, yaw)).
  rewrite (get_thrust_direction_Fin uav1 roll pitch yaw eq_refl). cbn [bind].
  rewrite (total_thrust_Fin uav1 p ws eq_refl). cbn [bind].
  change (gain_matrix (init (Fin m) None)) with (FinM Rid3).
  rewrite (update_on_reals m (p * Rsum_sq ws) dt Rid3 e
             (euler_R pos (vx, vy, vz) dt) (euler_R (vx, vy, vz) a dt)
             (body_z_axis roll pitch yaw) Hm Hdt).
  cbn [bind fst snd]. exists uav1.
  exists (mk (Fin m) (FinM Rid3)
             (FinV (vadd_R e (increment_R m Rid3 (euler_R (vx, vy, vz) a dt)
                                (body_z_axis roll pitch yaw) (p * Rsum_sq ws) dt)))).
  split; [reflexivity |].
  cbn [estimated_disturbance]. subst a.
  destruct (body_z_axis roll pitch yaw) as [[d0 d1] d2].
  destruct e as [[e0 e1] e2], r as [[r0 r1] r2], w as [[w0 w1] w2].
  unfold vadd_R, increment_R, acceleration_R, euler_R, Rid3, FinV.
  repeat (apply f_equal2); apply Fin_eq; field; repeat split; assumption.
Qed.

Lemma step_estimate_increment_witness :
  exists uav1 observer1,
    Simulation.step (real_uav 6 9.81 0.05 (0.1, 0.1, 0.1) (0, 0, 0) (1, 0, 0) (0.1, 0.05, 0.2))
                    (mk (Fin 6) (gain_matrix (init (Fin 6) None)) (FinV (0, 0, 0)))
                    (map Fin [400; 400; 400; 400; 400; 400]) (Fin 0.01)
                    (FinV (0.5, 0.3, 0))
      = Returned (uav1, observer1,
                  (SixRotorUAV.state uav1, estimated_disturbance observer1)) /\
    estimated_disturbance observer1
      = FinV (0 + 1 - 0.01 * (0.1 * 1) / 6 + 0.01 * 0.5,
              0 + 0 - 0.01 * (0.1 * 0) / 6 + 0.01 * 0.3,
              0 + 0 - 0.01 * (0.1 * 0) / 6 + 0.01 * 0 - 0.01 * (9.81 - 9.81)).
Proof.
  apply (step_estimate_increment 6 9.81 0.05 0.01 (0.1, 0.1, 0.1) (0, 0, 0)
           (0.1, 0.05, 0.2) (0.5, 0.3, 0) (0, 0, 0)
           [400; 400; 400; 400; 400; 400] 1 0 0); lra.
Defined.

End ObserverMore.

(** ** More on the compensator *)

Section FDIMore.

Import FDICompensator.

(** *** Shapes *)

(** Resolve the comparisons of absolute values that [detect_faults] makes. *)
Ltac by_cases_of_abs :=
  unfold Rabs;
  repeat match goal with |- context [Rcase_abs ?x] => destruct (Rcase_abs x) end;
  lra.

Ltac abs_tests :=
  repeat match goal with
    | |- context [Rlt_bool ?a ?b] =>
        first [ rewrite (proj2 (Rlt_bool_iff a b)) by by_cases_of_abs
              | replace (Rlt_bool a b) with false
                  by (symmetry; apply not_true_iff_false; rewrite Rlt_bool_iff;
                      by_cases_of_abs) ]
    end.

(** X11. Two speed arrays of different lengths, neither of length one,
    make [detect_faults] raise [ValueError]: the subtraction cannot
    broadcast. *)
Theorem detect_faults_shape_mismatch
    (self : t) (measured expected : list float64) :
  length measured <> length expected ->
  length measured <> 1%nat ->
  length expected <> 1%nat ->
  detect_faults self measured expected = Raised ValueError.
Proof.
  intros Hne Hm He. unfold detect_faults, broadcast.
  destruct (Nat.eqb (length measured) (length expected)) eqn:E.
  - apply Nat.eqb_eq in E. contradiction.
  - destruct measured as [| m [| m' ms]], expected as [| e [| e' es]];
      cbn in *; try reflexivity; try contradiction.
Qed.

Lemma detect_faults_shape_mismatch_witness :
  detect_faults init_default
    [Fin 400; Fin 400; Fin 400; Fin 400; Fin 400; Fin 400]
    [Fin 400; Fin 400; Fin 400; Fin 400; Fin 400]
  = Raised ValueError.
Proof.
  apply detect_faults_shape_mismatch; cbn; discriminate.
Defined.

(** X12. One expected speed for all rotors.  When [expected_speeds] holds a
    single value, every rotor is compared with that value: the flags are as
    many as the measured speeds. *)
Theorem detect_faults_single_expected
    (self : t) (measured : list float64) (e : float64) :
  exists self',
    detect_faults self measured [e] = Returned (self', rotor_states self') /\
    rotor_states self' = map (fun m => flag_of (threshold self) m e) measured /\
    length (rotor_states self') = length measured.
Proof.
  exists (mk (num_rotors self) (threshold self)
             (map (fun m => flag_of (threshold self) m e) measured)).
  split; [| split; [reflexivity | apply length_map]].
  unfold detect_faults, broadcast.
  destruct measured as [| m [| m' ms]]; cbn in *; try reflexivity.
  unfold flag_of. rewrite !map_map. reflexivity.
Qed.

(** *** Flags *)

Lemma of_bool_is_flag (b : bool) : is_flag (of_bool b).
Proof. destruct b; [right | left]; reflexivity. Qed.

Lemma detect_faults_output (self self' : t) (measured expected out : list float64) :
  detect_faults self measured expected = Returned (self', out) ->
  Forall is_flag out /\
  rotor_states self' = out /\
  threshold self' = threshold self /\
  num_rotors self' = num_rotors self.
Proof.
  unfold detect_faults.
  destruct (broadcast fsub measured expected) as [diff | e]; cbn [bind];
    [| discriminate].
  intros H. injection H as <- <-. cbn [rotor_states threshold num_rotors].
  split; [| repeat split].
  apply Forall_forall. intros h Hin.
  apply in_map_iff in Hin. destruct Hin as (x & <- & _).
  apply of_bool_is_flag.
Qed.

(** X13. Whatever the speeds are ([nan] and [inf] included), the health
    vector [detect_faults] returns holds only 0 and 1, and it is the vector the
    object stores; threshold and rotor count stay as constructed. *)
Theorem detect_faults_gives_flags
    (self self' : t) (measured expected out : list float64) :
  detect_faults self measured expected = Returned (self', out) ->
  Forall is_flag out /\
  rotor_states self' = out /\
  threshold self' = threshold self /\
  num_rotors self' = num_rotors self.
Proof.
  intros Hcall.
  destruct (detect_faults_output _ _ _ _ _ Hcall) as (Hflags & Hstored & Hthr & Hn).
  split; [exact Hflags |]. split; [exact Hstored |]. split; assumption.
Qed.

Lemma detect_faults_gives_flags_witness :
  Forall is_flag [Fin 0; Fin 1; Fin 0].
Proof.
  refine (proj1 (detect_faults_gives_flags init_default
                   (mk 6 (Fin 0.1) [Fin 0; Fin 1; Fin 0])
                   [NaN; Fin 400; Inf false] [Fin 400; Fin 400; Fin 400]
                   [Fin 0; Fin 1; Fin 0] _)).
  unfold detect_faults, broadcast, init_default, init. cbn.
  abs_tests. reflexivity.
Defined.




(** X15. Rotors that run exactly at their expected finite speeds are all
    healthy as soon as the threshold is positive. *)
Theorem exact_tracking_is_healthy (self : t) (thr : R) (ws : list R) :
  threshold self = Fin thr ->
  0 < thr ->
  exists self',
    detect_faults self (map Fin ws) (map Fin ws) = Returned (self', rotor_states self') /\
    rotor_states self' = np_ones (length ws).
Proof.
  intros Hthr Hpos.
  rewrite (detect_faults_same_length self (map Fin ws) (map Fin ws) eq_refl).
  exists (mk (num_rotors self) (threshold self)
             (zip_with (flag_of (threshold self)) (map Fin ws) (map Fin ws))).
  split; [reflexivity |]. cbn [rotor_states]. rewrite Hthr.
  unfold np_ones. induction ws as [| w ws IH]; [reflexivity |].
  cbn [map zip_with length repeat]. rewrite IH. f_equal.
  unfold flag_of. cbn [fsub fneg fadd fabs flt].
  replace (w + - w) with 0 by ring. rewrite Rabs_R0.
  rewrite (proj2 (Rlt_bool_iff 0 thr) Hpos). reflexivity.
Qed.

Lemma exact_tracking_is_healthy_witness :
  exists self',
    detect_faults init_default (map Fin [400; 400; 390]) (map Fin [400; 400; 390])
    = Returned (self', rotor_states self') /\
    rotor_states self' = np_ones 3.
Proof.
  apply (exact_tracking_is_healthy init_default 0.1 [400; 400; 390] eq_refl). lra.
Defined.

(** *** Allocation *)

Lemma fold_fadd_allocation (q : R) (health : list float64) : forall acc : R,
  Forall is_flag health ->
  fold_left fadd
    (map (fun h => if feqb h (Fin 1) then Fin q else Fin 0) health) (Fin acc)
  = Fin (acc + INR (healthy_count health) * q).
Proof.
  unfold healthy_count.
  induction health as [| h hs IH]; intros acc Hall.
  - cbn. apply Fin_eq. lra.
  - inversion Hall as [| h' hs' Hh Hhs]; subst.
    destruct Hh as [-> | ->]; cbn [map fold_left filter].
    + rewrite feqb_0_1. cbn [fadd]. rewrite (IH _ Hhs). apply Fin_eq. lra.
    + rewrite feqb_1_1. cbn [fadd length]. rewrite (IH _ Hhs), S_INR.
      apply Fin_eq. lra.
Qed.

Lemma healthy_count_positive (health : list float64) :
  healthy_count health <> 0%nat -> INR (healthy_count health) <> 0.
Proof. intros H. apply not_0_INR. exact H. Qed.

Lemma allocation_adds_up (self : t) (desired : R) (health : list float64) :
  Forall is_flag health ->
  healthy_count health <> 0%nat ->
  exists out,
    compensate_thrust self (Fin desired) health = Returned out /\
    np_sum out = Fin desired.
Proof.
  intros Hall Hsome. eexists.
  split; [apply compensate_thrust_some_healthy; assumption |].
  pose proof (healthy_count_positive _ Hsome) as Hn.
  rewrite (fdiv_Fin desired _ Hn). unfold np_sum.
  rewrite (fold_fadd_allocation _ _ _ Hall). apply Fin_eq. field. exact Hn.
Qed.

(** X16. The equal split conserves the desired thrust.  On a health vector
    of flags with at least one healthy rotor and a finite desired thrust, the
    values [compensate_thrust] returns add up to the desired thrust, whatever
    the number of faulty rotors. *)
Theorem compensate_thrust_conserves_total
    (self : t) (desired : R) (health : list float64) :
  Forall is_flag health ->
  healthy_count health <> 0%nat ->
  exists out,
    compensate_thrust self (Fin desired) health = Returned out /\
    np_sum out = Fin desired.
Proof.
  intros Hall Hsome.
  destruct (allocation_adds_up self desired health Hall Hsome) as (out & Hcall & Hsum).
  exists out. split; assumption.
Qed.

Lemma compensate_thrust_conserves_total_witness :
  exists out,
    compensate_thrust init_default (Fin 300)
      [Fin 1; Fin 0; Fin 1; Fin 1; Fin 0; Fin 1] = Returned out /\
    np_sum out = Fin 300.
Proof.
  apply compensate_thrust_conserves_total.
  - repeat constructor; (left; reflexivity) || (right; reflexivity).
  - unfold healthy_count. cbn [filter]. rewrite feqb_0_1, feqb_1_1.
    cbn [length]. discriminate.
Defined.



(** X18. The length of the health vector is not checked against
    [num_rotors].  On a vector of flags [compensate_thrust] returns as many
    values as the vector holds when a rotor is healthy, and [num_rotors]
    values when none is. *)
Theorem compensate_thrust_output_length
    (self : t) (desired : float64) (health : list float64) :
  Forall is_flag health ->
  exists out,
    compensate_thrust self desired health = Returned out /\
    length out
    = if Nat.eqb (healthy_count health) 0 then num_rotors self else length health.
Proof.
  intros Hall.
  destruct (Nat.eqb (healthy_count health) 0) eqn:E.
  - apply Nat.eqb_eq in E. exists (np_zeros (num_rotors self)).
    split; [apply compensate_thrust_none_healthy; assumption |].
    apply repeat_length.
  - apply Nat.eqb_neq in E. eexists.
    split; [apply compensate_thrust_some_healthy; assumption |].
    apply length_map.
Qed.

Lemma compensate_thrust_output_length_witness :
  (exists out,
      compensate_thrust init_default (Fin 300) [Fin 1; Fin 0] = Returned out /\
      length out = 2%nat) /\
  (exists out,
      compensate_thrust init_default (Fin 300) [Fin 0; Fin 0] = Returned out /\
      length out = 6%nat).
Proof.
  assert (Hcount1 : healthy_count [Fin 1; Fin 0] = 1%nat).
  { unfold healthy_count. cbn [filter]. rewrite feqb_0_1, feqb_1_1. reflexivity. }
  assert (Hcount0 : healthy_count [Fin 0; Fin 0] = 0%nat).
  { unfold healthy_count. cbn [filter]. rewrite feqb_0_1. reflexivity. }
  split.
  - destruct (compensate_thrust_output_length init_default (Fin 300) [Fin 1; Fin 0])
      as (out & Hcall & Hlen).
    + repeat constructor; (left; reflexivity) || (right; reflexivity).
    + exists out. split; [exact Hcall |]. rewrite Hlen, Hcount1. reflexivity.
  - destruct (compensate_thrust_output_length init_default (Fin 300) [Fin 0; Fin 0])
      as (out & Hcall & Hlen).
    + repeat constructor; left; reflexivity.
    + exists out. split; [exact Hcall |]. rewrite Hlen, Hcount0. reflexivity.
Defined.

Lemma np_ones_flags (n : nat) : Forall is_flag (np_ones n).
Proof.
  unfold np_ones. induction n as [| n IH]; constructor;
    [right; reflexivity | exact IH].
Qed.

Lemma healthy_count_ones (n : nat) : healthy_count (np_ones n) = n.
Proof.
  unfold healthy_count, np_ones. induction n as [| n IH]; [reflexivity |].
  cbn [repeat filter]. rewrite feqb_1_1. cbn [length]. rewrite IH. reflexivity.
Qed.

(** X19. A compensator as constructed holds [num_rotors] healthy flags, and
    [compensate_thrust] on them gives every rotor the desired thrust divided
    by [num_rotors]; with no rotor at all the result is empty. *)
Theorem fresh_compensator_splits_evenly (n : nat) (thr : float64) (desired : R) :
  rotor_states (init n thr) = np_ones n /\
  compensate_thrust (init n thr) (Fin desired) (rotor_states (init n thr))
  = Returned (repeat (Fin (desired / INR n)) n).
Proof.
  split; [reflexivity |]. cbn [init rotor_states].
  destruct n as [| n].
  - unfold compensate_thrust. cbn. rewrite (Req_bool_true 0 0 eq_refl). reflexivity.
  - assert (Hsome : healthy_count (np_ones (S n)) <> 0%nat).
    { rewrite healthy_count_ones. discriminate. }
    rewrite (compensate_thrust_some_healthy _ _ _ (np_ones_flags (S n)) Hsome).
    rewrite healthy_count_ones.
    rewrite (fdiv_Fin desired (INR (S n))) by (apply not_0_INR; discriminate).
    f_equal. unfold np_ones. generalize (Fin (desired / INR (S n))) as q.
    intros q. generalize (S n) as k. intros k.
    induction k as [| k IH]; [reflexivity |].
    cbn [repeat map]. rewrite feqb_1_1, IH. reflexivity.
Qed.

End FDIMore.

(** ** The simulation run *)

Section Run.

Import Simulation.

Lemma step_total (uav : SixRotorUAV.t) (observer : DisturbanceObserver.t)
    (speeds : list float64) (dt : float64) (disturbance : vec3) :
  exists uav1 observer1 state est,
    step uav observer speeds dt disturbance
    = Returned (uav1, observer1, (state, est)).
Proof.
  destruct (step_returns uav observer speeds dt disturbance)
    as (uav1 & d & T & _ & _ & _ & Hstep).
  rewrite Hstep. unfold DisturbanceObserver.update. cbn [bind fst snd].
  do 4 eexists. reflexivity.
Qed.

Lemma loop_appends (ts : list float64) :
  forall (uav : SixRotorUAV.t) (observer : DisturbanceObserver.t)
         (speeds : list float64) (dt : float64)
         (sts : list state6) (dists : list vec3),
  exists sts' dists',
    loop ts uav observer speeds dt sts dists = Returned (sts', dists') /\
    length sts' = (length sts + length ts)%nat /\
    length dists' = (length dists + length ts)%nat.
Proof.
  induction ts as [| t ts IH]; intros uav observer speeds dt sts dists.
  - exists sts, dists. cbn. repeat split; lia.
  - cbn [loop].
    match goal with
    | |- context [step uav observer speeds dt ?w] =>
        destruct (step_total uav observer speeds dt w)
          as (uav1 & observer1 & st & est & Hstep)
    end.
    rewrite Hstep. cbn [bind].
    destruct (IH uav1 observer1 speeds dt (sts ++ [st]) (dists ++ [est]))
      as (sts' & dists' & Hloop & Hs & Hd).
    exists sts', dists'. split; [exact Hloop |].
    rewrite Hs, Hd, !length_app. cbn [length]. split; lia.
Qed.

Lemma np_linspace_length (start stop : R) (num : Z) :
  (0 <= num)%Z ->
  exists ts, np_linspace start stop num = Returned ts /\ length ts = Z.to_nat num.
Proof.
  intros H. unfold np_linspace.
  destruct (num <? 0)%Z eqn:E; [apply Z.ltb_lt in E; lia |].
  eexists. split; [reflexivity |]. rewrite length_map, length_seq. reflexivity.
Qed.

Lemma py_int_negative (x : R) : x <= -1 -> (py_int x < 0)%Z.
Proof.
  intros Hx. unfold py_int.
  rewrite (proj2 (Rlt_bool_iff x 0)) by lra.
  destruct (base_Int_part (- x)) as [_ Hlow].
  assert (H : 0 < IZR (Int_part (- x))) by lra.
  apply lt_IZR in H. lia.
Qed.

(** X20. [run_simulation] fails before it simulates anything when the
    timestep is zero ([ZeroDivisionError] from [total_time / dt]) and when
    the quotient [total_time / dt] is -1 or less ([ValueError] from
    [np.linspace], asked for a negative number of samples). *)
Theorem run_simulation_raises (total_time dt : R) :
  (dt = 0 -> run_simulation total_time dt = Raised ZeroDivisionError) /\
  (dt <> 0 -> total_time / dt <= -1 ->
   run_simulation total_time dt = Raised ValueError).
Proof.
  split.
  - intros ->. unfold run_simulation, py_truediv.
    rewrite (Req_bool_true 0 0 eq_refl). reflexivity.
  - intros Hdt Hq. unfold run_simulation, py_truediv.
    rewrite (Req_bool_false dt 0 Hdt). cbn [bind].
    unfold run_ticks, np_linspace.
    rewrite (proj2 (Z.ltb_lt _ _) (py_int_negative _ Hq)). reflexivity.
Qed.

Lemma run_simulation_raises_witness :
  run_simulation 2 0 = Raised ZeroDivisionError /\
  run_simulation (-2) 0.01 = Raised ValueError.
Proof.
  split.
  - apply (proj1 (run_simulation_raises 2 0)). reflexivity.
  - apply (proj2 (run_simulation_raises (-2) 0.01)); lra.
Defined.

(** X21. One record per tick.  Whatever number [time_steps] line 21 has
    computed, the rest of [run_simulation] raises [ValueError] when it is
    negative and otherwise returns three series of exactly [time_steps]
    entries each: [times], [states] and [disturbances]. *)
Theorem run_ticks_series_lengths (time_steps : Z) (total_time dt : R) :
  ((time_steps < 0)%Z -> run_ticks time_steps total_time dt = Raised ValueError) /\
  ((0 <= time_steps)%Z ->
   exists r,
     run_ticks time_steps total_time dt = Returned r /\
     length (times r) = Z.to_nat time_steps /\
     length (states r) = Z.to_nat time_steps /\
     length (disturbances r) = Z.to_nat time_steps).
Proof.
  split.
  - intros Hneg. unfold run_ticks, np_linspace.
    rewrite (proj2 (Z.ltb_lt _ _) Hneg). reflexivity.
  - intros Hpos. unfold run_ticks.
    destruct (np_linspace_length 0 total_time time_steps Hpos) as (ts & Hts & Hlen).
    rewrite Hts. cbn [bind SixRotorUAV.set_euler_angles].
    match goal with
    | |- context [loop ts ?u ?o ?s ?d [] []] =>
        destruct (loop_appends ts u o s d [] []) as (sts & dists & Hloop & Hs & Hd);
        rewrite Hloop
    end.
    cbn [bind]. eexists. split; [reflexivity |].
    cbn [times states disturbances length] in *.
    rewrite Hs, Hd, Hlen. repeat split.
Qed.

(** The default run: 200 ticks of a hundredth of a second. *)
Lemma run_ticks_series_lengths_witness :
  exists r,
    run_ticks 200 2 0.01 = Returned r /\
    length (times r) = 200%nat /\
    length (states r) = 200%nat /\
    length (disturbances r) = 200%nat.
Proof.
  apply (proj2 (run_ticks_series_lengths 200 2 0.01)). lia.
Defined.

End Run.
